(** * Worker-side test reporter of trial's distributed runner

    A shallow embedding of [twisted/trial/_dist/workerreporter.py]: the
    [ReportingResults] context manager and the [WorkerReporter] class, with
    the objects they share kept in an explicit store. *)

From Stdlib Require Import ZArith Lia.
From stdpp Require Import gmap strings list fin_maps pretty.

Open Scope string_scope.
Open Scope list_scope.

(** ** Python values *)

(** A class object, as far as [qual] and [str] look at it. *)
Record PyClass := mkClass { cls_module : string; cls_name : string }.

(** The values the reporter handles: class objects, exception instances
    (with the text [str] gives for them) and strings. *)
Inductive PyObject :=
| ClassObj (c : PyClass)
| ExcObj (c : PyClass) (msg : string)
| StrObj (s : string).

(** How a call ends: it returns a value or raises an exception. *)
Inductive outcome (A : Type) :=
| Return (a : A)
| Raise (e : PyObject).
Arguments Return {A} a.
Arguments Raise {A} e.

Definition builtin (name : string) : PyClass := mkClass "builtins" name.
Definition ValueError (msg : string) : PyObject := ExcObj (builtin "ValueError") msg.
Definition AttributeError (msg : string) : PyObject :=
  ExcObj (builtin "AttributeError") msg.

(** [type(o).__name__] *)
Definition type_name (o : PyObject) : string :=
  match o with
  | ClassObj _ => "type"
  | ExcObj c _ => cls_name c
  | StrObj _ => "str"
  end.

Definition no_attribute (tyname attr : string) : PyObject :=
  AttributeError ("'" +:+ tyname +:+ "' object has no attribute '" +:+ attr +:+ "'").

(** [repr] of a class: builtins are shown without their module. *)
Definition class_repr (c : PyClass) : string :=
  if String.eqb (cls_module c) "builtins"
  then "<class '" +:+ cls_name c +:+ "'>"
  else "<class '" +:+ cls_module c +:+ "." +:+ cls_name c +:+ "'>".

(** [str(o)] *)
Definition str (o : PyObject) : string :=
  match o with
  | ClassObj c => class_repr c
  | ExcObj _ msg => msg
  | StrObj s => s
  end.

(** Modelled from the spec: [twisted.python.reflect.qual], the
    module-qualified name of a type, [clazz.__module__ + "." +
    clazz.__name__].  Only class objects have a [__name__]; on any other
    object the attribute lookup raises [AttributeError]. *)
Definition qual (clazz : PyObject) : outcome string :=
  match clazz with
  | ClassObj c => Return (cls_module c +:+ "." +:+ cls_name c)
  | o => Raise (no_attribute (type_name o) "__name__")
  end.

(** ** Failures *)

(** One entry of [Failure.frames]: function name, file name and line number
    (the entries for local and global variables are never read here). *)
Record Frame := mkFrame { co_name : string; co_filename : string; lineno : Z }.

(** A traceback, as the frames it walks through, outermost first. *)
Definition Traceback := list Frame.

(** Modelled from the spec: [twisted.python.failure.Failure], the wrapped
    form of an error "exposing message, type, and frames". *)
Record Failure := mkFailure {
  value : PyObject;
  type : PyObject;
  frames : list Frame
}.

(** Modelled from the spec: the constructor
    [Failure(exc_value, exc_type, exc_tb)], which stores the value and the
    type it is given and reads the frames off the traceback in order. *)
Definition Failure_new (exc_value exc_type : PyObject) (exc_tb : Traceback) : Failure :=
  {| value := exc_value; type := exc_type; frames := exc_tb |}.

(** Modelled from the spec: [Failure.getErrorMessage], the message of the
    wrapped value ([reflect.safe_str] of it, which never raises). *)
Definition getErrorMessage (f : Failure) : string := str (value f).

(** The [error] argument of the reporting methods: a 3-tuple or a
    [Failure]; [_getFailure] tells them apart with [isinstance(error, tuple)]. *)
Inductive ErrorArg :=
| Tuple3 (e0 e1 : PyObject) (e2 : Traceback)
| Wrapped (f : Failure).

(** [WorkerReporter._getFailure] *)
Definition _getFailure (error : ErrorArg) : Failure :=
  match error with
  | Tuple3 e0 e1 e2 => Failure_new e1 e0 e2
  | Wrapped f => f
  end.

(** [WorkerReporter._getFrames]: the loop extends [frames] by three entries
    per frame. *)
Definition _getFrames (failure : Failure) : list string :=
  fold_left
    (fun acc frame => acc ++ [co_name frame; co_filename frame; pretty (lineno frame)])
    (frames failure) [].

(** The three values [_addErrorFallible] and [addFailure] compute from their
    error argument, in the order the source computes them. *)
Definition normalize (error : ErrorArg) : outcome (string * string * list string) :=
  let failure := _getFailure error in
  let errorStr := getErrorMessage failure in
  match qual (type failure) with
  | Raise e => Raise e
  | Return errorClass => Return (errorStr, errorClass, _getFrames failure)
  end.

(** ** The relay channel *)

(** The commands of [managercommands] the reporter sends. *)
Inductive Command :=
| AddSuccess
| AddError
| AddFailure
| AddSkip
| AddExpectedFailure
| AddUnexpectedSuccess.

(** A keyword argument of a remote call: a string or a list of strings. *)
Inductive AmpValue :=
| AmpString (s : string)
| AmpListOfString (l : list string).

(** The keyword arguments of a remote call, in the order they are written. *)
Definition Payload := list (string * AmpValue).

(** Modelled from the spec: [Deferred], the handle of one relay call.  It
    already holds a result ([succeed]), already holds a failure wrapping an
    exception ([fail]), or has not fired yet ([unfired], with the number of
    the call it stands for). *)
Inductive Deferred :=
| succeed (result : PyObject)
| fail (reason : PyObject)
| unfired (n : nat).

(** Modelled from the spec: the injected [AMP] protocol object.
    [callRemote(command, **kwargs)] either raises or returns a [Deferred];
    which of the two is the transport's affair ([answer], which sees the
    calls made before), and every call made is kept in [sent]. *)
Record AMP := mkAMP {
  answer : list (Command * Payload) -> Command -> Payload -> outcome Deferred;
  sent : list (Command * Payload)
}.

(** ** Arguments of the reporting methods *)

(** A test case, as far as [test.id()] goes. *)
Record TestCase := mkTest { test_id : string }.

(** A [Todo], as far as [todo.reason] goes. *)
Record Todo := mkTodo { reason : string }.

(** Modelled from the spec: the base class [TestResult], the synchronous
    bookkeeping the reporter delegates to first.  Each method updates the
    bookkeeping state [B] and returns or raises. *)
Class TestResult (B : Type) := {
  super_addSuccess : TestCase -> B -> B * outcome unit;
  super_addError : TestCase -> ErrorArg -> B -> B * outcome unit;
  super_addFailure : TestCase -> ErrorArg -> B -> B * outcome unit;
  super_addSkip : TestCase -> PyObject -> B -> B * outcome unit;
  super_addExpectedFailure :
    TestCase -> ErrorArg -> option Todo -> B -> B * outcome unit;
  super_addUnexpectedSuccess : TestCase -> option Todo -> B -> B * outcome unit
}.

(** ** Objects and the store *)

Abbreviation loc := nat.

(** [ReportingResults]: both attributes are references. *)
Record ReportingResults := mkReportingResults {
  _reporter : loc;
  _results : loc
}.

(** [WorkerReporter]: the inherited bookkeeping, the protocol object and the
    reference to the active context manager, if any. *)
Record WorkerReporter (B : Type) := mkWorkerReporter {
  bookkeeping : B;
  ampProtocol : AMP;
  _reporting : option loc
}.
Arguments mkWorkerReporter {B} _ _ _.
Arguments bookkeeping {B} _.
Arguments ampProtocol {B} _.
Arguments _reporting {B} _.

(** The store: the reporters, the context managers and the list objects,
    each kind under its own references. *)
Record Store (B : Type) := mkStore {
  reporters : gmap loc (WorkerReporter B);
  contexts : gmap loc ReportingResults;
  lists : gmap loc (list Deferred)
}.
Arguments mkStore {B} _ _ _.
Arguments reporters {B} _.
Arguments contexts {B} _.
Arguments lists {B} _.

(** A computation on the store: it returns, raises, or is undefined ([None])
    when it follows a reference that the store does not hold. *)
Definition Py (B A : Type) : Type := Store B -> option (outcome A * Store B).

Definition ret {B A} (a : A) : Py B A := fun h => Some (Return a, h).

Definition raise {B A} (e : PyObject) : Py B A := fun h => Some (Raise e, h).

Definition bind {B A C} (m : Py B A) (k : A -> Py B C) : Py B C :=
  fun h =>
    match m h with
    | Some (Return a, h') => k a h'
    | Some (Raise e, h') => Some (Raise e, h')
    | None => None
    end.

Declare Scope py_scope.
Delimit Scope py_scope with py.
Notation "x <- m ;; k" := (bind m (fun x => k))
  (at level 100, m at next level, right associativity) : py_scope.
Notation "m ;;; k" := (bind m (fun _ => k))
  (at level 100, right associativity) : py_scope.

(** A pure call that may raise, run inside a computation. *)
Definition lift {B A} (o : outcome A) : Py B A :=
  match o with
  | Return a => ret a
  | Raise e => raise e
  end.

Section Reporter.

Context {B : Type} {TR : TestResult B}.

Open Scope py_scope.

(** *** Attribute access *)

(** Read the object behind a reporter reference. *)
Definition the_reporter (self : loc) : Py B (WorkerReporter B) :=
  fun h =>
    match reporters h !! self with
    | Some r => Some (Return r, h)
    | None => None
    end.

(** Assign attributes of a reporter in place. *)
Definition set_reporter (self : loc) (f : WorkerReporter B -> WorkerReporter B)
  : Py B unit :=
  fun h =>
    match reporters h !! self with
    | Some r =>
        Some (Return tt, mkStore (<[self := f r]> (reporters h)) (contexts h) (lists h))
    | None => None
    end.

(** Read the object behind a context-manager reference. *)
Definition the_context (self : loc) : Py B ReportingResults :=
  fun h =>
    match contexts h !! self with
    | Some c => Some (Return c, h)
    | None => None
    end.

(** [l.append(x)] on the list object behind [l]. *)
Definition list_append (l : loc) (x : Deferred) : Py B unit :=
  fun h =>
    match lists h !! l with
    | Some xs =>
        Some (Return tt, mkStore (reporters h) (contexts h) (<[l := xs ++ [x]]> (lists h)))
    | None => None
    end.

(** A new list object, empty ([Factory(list)]). *)
Definition new_list : Py B loc :=
  fun h =>
    let l := fresh (dom (lists h)) in
    Some (Return l, mkStore (reporters h) (contexts h) (<[l := []]> (lists h))).

(** A new [ReportingResults(reporter)]: its [_results] is a list of its own. *)
Definition new_ReportingResults (reporter : loc) : Py B loc :=
  l <- new_list ;;
  fun h =>
    let s := fresh (dom (contexts h)) in
    Some (Return s,
          mkStore (reporters h)
                  (<[s := mkReportingResults reporter l]> (contexts h))
                  (lists h)).

(** [WorkerReporter(ampProtocol)], on bookkeeping as [super().__init__()]
    leaves it; [_reporting] starts as the class attribute [None]. *)
Definition new_WorkerReporter (init : B) (amp : AMP) : Py B loc :=
  fun h =>
    let r := fresh (dom (reporters h)) in
    Some (Return r,
          mkStore (<[r := mkWorkerReporter init amp None]> (reporters h))
                  (contexts h) (lists h)).

(** *** ReportingResults *)

(** [ReportingResults.__enter__]: the list object itself is returned. *)
Definition __enter__ (self : loc) : Py B loc :=
  c <- the_context self ;;
  ret (_results c).

(** [ReportingResults.__exit__] *)
Definition __exit__ (self : loc) (excType excValue : option PyObject)
    (excTraceback : option Traceback) : Py B bool :=
  c <- the_context self ;;
  set_reporter (_reporter c)
    (fun r => mkWorkerReporter (bookkeeping r) (ampProtocol r) None) ;;;
  ret false.

(** [ReportingResults.record] *)
Definition record (self : loc) (result : Deferred) : Py B unit :=
  c <- the_context self ;;
  list_append (_results c) result.

(** The class of an object, [type(o)]. *)
Definition type_of (o : PyObject) : PyObject :=
  match o with
  | ClassObj _ => ClassObj (builtin "type")
  | ExcObj c _ => ClassObj c
  | StrObj _ => ClassObj (builtin "str")
  end.

(** The statement [with cm as results: body]: [__exit__] gets the exception
    the body raised, or three [None]; the exception goes on to the caller
    unless [__exit__] returns a true value. *)
Definition with_ (cm : loc) (body : loc -> Py B unit) : Py B unit :=
  results <- __enter__ cm ;;
  fun h =>
    match body results h with
    | Some (Return tt, h') => (__exit__ cm None None None ;;; ret tt) h'
    | Some (Raise e, h') =>
        (suppress <- __exit__ cm (Some (type_of e)) (Some e) (Some []) ;;
         if suppress : bool then ret tt else raise e) h'
    | None => None
    end.

(** *** WorkerReporter *)

Definition _DEFAULT_TODO : string := "Test expected to fail".

(** [WorkerReporter.gatherReportingResults] *)
Definition gatherReportingResults (self : loc) : Py B loc :=
  s <- new_ReportingResults self ;;
  set_reporter self
    (fun r => mkWorkerReporter (bookkeeping r) (ampProtocol r) (Some s)) ;;;
  ret s.

(** [self.ampProtocol.callRemote(command, **kwargs)] *)
Definition callRemote (self : loc) (command : Command) (kwargs : Payload)
  : Py B Deferred :=
  r <- the_reporter self ;;
  let amp := ampProtocol r in
  set_reporter self
    (fun r => mkWorkerReporter (bookkeeping r)
                (mkAMP (answer amp) (sent amp ++ [(command, kwargs)]))
                (_reporting r)) ;;;
  lift (answer amp (sent amp) command kwargs).

(** Modelled from the spec: [maybeDeferred(f)] calls [f]; an exception it
    raises is caught and comes back as a failed [Deferred]. *)
Definition maybeDeferred (f : Py B Deferred) : Py B Deferred :=
  fun h =>
    match f h with
    | Some (Return d, h') => Some (Return d, h')
    | Some (Raise e, h') => Some (Return (fail e), h')
    | None => None
    end.

Definition usage_error : PyObject :=
  ValueError "Cannot call command outside of reporting context manager.".

(** [WorkerReporter._call] *)
Definition _call (self : loc) (f : Py B Deferred) : Py B unit :=
  r <- the_reporter self ;;
  match _reporting r with
  | Some ctx =>
      d <- maybeDeferred f ;;
      record ctx d
  | None => raise usage_error
  end.

(** A call of a method of the base class on [self]. *)
Definition super (m : B -> B * outcome unit) (self : loc) : Py B unit :=
  r <- the_reporter self ;;
  let '(b, o) := m (bookkeeping r) in
  set_reporter self (fun r => mkWorkerReporter b (ampProtocol r) (_reporting r)) ;;;
  lift o.

(** [WorkerReporter.addSuccess] *)
Definition addSuccess (self : loc) (test : TestCase) : Py B unit :=
  super (super_addSuccess test) self ;;;
  let testName := test_id test in
  _call self (callRemote self AddSuccess [("testName", AmpString testName)]).

(** [WorkerReporter._addErrorFallible] *)
Definition _addErrorFallible (self : loc) (testName : string) (errorObj : ErrorArg)
  : Py B Deferred :=
  let failure := _getFailure errorObj in
  let errorStr := getErrorMessage failure in
  errorClass <- lift (qual (type failure)) ;;
  let frames := _getFrames failure in
  callRemote self AddError
    [("testName", AmpString testName);
     ("error", AmpString errorStr);
     ("errorClass", AmpString errorClass);
     ("frames", AmpListOfString frames)].

(** [WorkerReporter.addError] *)
Definition addError (self : loc) (test : TestCase) (error : ErrorArg) : Py B unit :=
  super (super_addError test error) self ;;;
  let testName := test_id test in
  _call self (_addErrorFallible self testName error).

(** [WorkerReporter.addFailure] *)
Definition addFailure (self : loc) (test : TestCase) (fail : ErrorArg) : Py B unit :=
  super (super_addFailure test fail) self ;;;
  let testName := test_id test in
  let failure := _getFailure fail in
  let fail := getErrorMessage failure in
  failClass <- lift (qual (type failure)) ;;
  let frames := _getFrames failure in
  _call self
    (callRemote self AddFailure
       [("testName", AmpString testName);
        ("fail", AmpString fail);
        ("failClass", AmpString failClass);
        ("frames", AmpListOfString frames)]).

(** [WorkerReporter.addSkip] *)
Definition addSkip (self : loc) (test : TestCase) (reason : PyObject) : Py B unit :=
  super (super_addSkip test reason) self ;;;
  let reason := str reason in
  let testName := test_id test in
  _call self
    (callRemote self AddSkip
       [("testName", AmpString testName); ("reason", AmpString reason)]).

(** [WorkerReporter._getTodoReason] *)
Definition _getTodoReason (todo : option Todo) : string :=
  match todo with
  | None => _DEFAULT_TODO
  | Some t => reason t
  end.

(** [error.getErrorMessage()]: a tuple has no such method. *)
Definition error_getErrorMessage (error : ErrorArg) : outcome string :=
  match error with
  | Wrapped f => Return (getErrorMessage f)
  | Tuple3 _ _ _ => Raise (no_attribute "tuple" "getErrorMessage")
  end.

(** [WorkerReporter.addExpectedFailure] *)
Definition addExpectedFailure (self : loc) (test : TestCase) (error : ErrorArg)
    (todo : option Todo) : Py B unit :=
  super (super_addExpectedFailure test error todo) self ;;;
  errorMessage <- lift (error_getErrorMessage error) ;;
  let testName := test_id test in
  _call self
    (callRemote self AddExpectedFailure
       [("testName", AmpString testName);
        ("error", AmpString errorMessage);
        ("todo", AmpString (_getTodoReason todo))]).

(** [WorkerReporter.addUnexpectedSuccess] *)
Definition addUnexpectedSuccess (self : loc) (test : TestCase) (todo : option Todo)
  : Py B unit :=
  super (super_addUnexpectedSuccess test todo) self ;;;
  let testName := test_id test in
  _call self
    (callRemote self AddUnexpectedSuccess
       [("testName", AmpString testName);
        ("todo", AmpString (_getTodoReason todo))]).

(** *** One call of a reporting method *)

(** The six reporting methods with their arguments. *)
Inductive Report :=
| Success (test : TestCase)
| Error (test : TestCase) (error : ErrorArg)
| Failed (test : TestCase) (failure : ErrorArg)
| Skip (test : TestCase) (reason : PyObject)
| ExpectedFailure (test : TestCase) (error : ErrorArg) (todo : option Todo)
| UnexpectedSuccess (test : TestCase) (todo : option Todo).

(** The method call [c] stands for, on the reporter [self]. *)
Definition report (self : loc) (c : Report) : Py B unit :=
  match c with
  | Success test => addSuccess self test
  | Error test error => addError self test error
  | Failed test failure => addFailure self test failure
  | Skip test reason => addSkip self test reason
  | ExpectedFailure test error todo => addExpectedFailure self test error todo
  | UnexpectedSuccess test todo => addUnexpectedSuccess self test todo
  end.

(** The same call on the base class alone. *)
Definition super_report (c : Report) : B -> B * outcome unit :=
  match c with
  | Success test => super_addSuccess test
  | Error test error => super_addError test error
  | Failed test failure => super_addFailure test failure
  | Skip test reason => super_addSkip test reason
  | ExpectedFailure test error todo => super_addExpectedFailure test error todo
  | UnexpectedSuccess test todo => super_addUnexpectedSuccess test todo
  end.

(** What a method computes after the base-class call and before it reaches
    [_call]: nothing that can raise, except the class name in [addFailure]
    and the message in [addExpectedFailure]. *)
Definition before_call (c : Report) : outcome unit :=
  match c with
  | Failed _ failure =>
      match qual (type (_getFailure failure)) with
      | Return _ => Return tt
      | Raise e => Raise e
      end
  | ExpectedFailure _ error _ =>
      match error_getErrorMessage error with
      | Return _ => Return tt
      | Raise e => Raise e
      end
  | _ => Return tt
  end.

(** What the function handed to [_call] computes before it calls
    [callRemote]: the command and its arguments, unless building them raises
    (only the class name in [_addErrorFallible] can). *)
Definition relay_of (c : Report) : outcome (Command * Payload) :=
  match c with
  | Success test => Return (AddSuccess, [("testName", AmpString (test_id test))])
  | Error test error =>
      match normalize error with
      | Return (errorStr, errorClass, frames) =>
          Return (AddError,
                  [("testName", AmpString (test_id test));
                   ("error", AmpString errorStr);
                   ("errorClass", AmpString errorClass);
                   ("frames", AmpListOfString frames)])
      | Raise e => Raise e
      end
  | Failed test failure =>
      match normalize failure with
      | Return (failStr, failClass, frames) =>
          Return (AddFailure,
                  [("testName", AmpString (test_id test));
                   ("fail", AmpString failStr);
                   ("failClass", AmpString failClass);
                   ("frames", AmpListOfString frames)])
      | Raise e => Raise e
      end
  | Skip test reason =>
      Return (AddSkip,
              [("testName", AmpString (test_id test));
               ("reason", AmpString (str reason))])
  | ExpectedFailure test error todo =>
      match error_getErrorMessage error with
      | Return errorMessage =>
          Return (AddExpectedFailure,
                  [("testName", AmpString (test_id test));
                   ("error", AmpString errorMessage);
                   ("todo", AmpString (_getTodoReason todo))])
      | Raise e => Raise e
      end
  | UnexpectedSuccess test todo =>
      Return (AddUnexpectedSuccess,
              [("testName", AmpString (test_id test));
               ("todo", AmpString (_getTodoReason todo))])
  end.

(** The store is closed under the references it holds. *)
Definition closed (h : Store B) : Prop :=
  (forall r rep s, reporters h !! r = Some rep -> _reporting rep = Some s ->
     is_Some (contexts h !! s)) /\
  (forall s c, contexts h !! s = Some c ->
     is_Some (reporters h !! _reporter c) /\ is_Some (lists h !! _results c)).

(** The store before any object is made. *)
Definition empty_store : Store B := mkStore ∅ ∅ ∅.

End Reporter.

(** ** A concrete base class *)

(** Modelled from the spec: the bookkeeping of trial's [TestResult], a count
    of successes and one list per other kind of outcome. *)
Record Tally := mkTally {
  successes : nat;
  errors : list (TestCase * Failure);
  failures : list (TestCase * Failure);
  skips : list (TestCase * PyObject);
  expectedFailures : list (TestCase * ErrorArg * string);
  unexpectedSuccesses : list (TestCase * string)
}.

(** Modelled from the spec: the methods of trial's [TestResult] on that
    bookkeeping; none of them raises. *)
#[export] Instance Tally_TestResult : TestResult Tally := {|
  super_addSuccess _ b :=
    (mkTally (S (successes b)) (errors b) (failures b) (skips b)
       (expectedFailures b) (unexpectedSuccesses b), Return tt);
  super_addError test error b :=
    (mkTally (successes b) (errors b ++ [(test, _getFailure error)]) (failures b)
       (skips b) (expectedFailures b) (unexpectedSuccesses b), Return tt);
  super_addFailure test fail b :=
    (mkTally (successes b) (errors b) (failures b ++ [(test, _getFailure fail)])
       (skips b) (expectedFailures b) (unexpectedSuccesses b), Return tt);
  super_addSkip test reason b :=
    (mkTally (successes b) (errors b) (failures b) (skips b ++ [(test, reason)])
       (expectedFailures b) (unexpectedSuccesses b), Return tt);
  super_addExpectedFailure test error todo b :=
    (mkTally (successes b) (errors b) (failures b) (skips b)
       (expectedFailures b ++ [(test, error, _getTodoReason todo)])
       (unexpectedSuccesses b), Return tt);
  super_addUnexpectedSuccess test todo b :=
    (mkTally (successes b) (errors b) (failures b) (skips b) (expectedFailures b)
       (unexpectedSuccesses b ++ [(test, _getTodoReason todo)]), Return tt)
|}.

Definition no_outcomes : Tally := mkTally 0 [] [] [] [] [].

(** A transport that accepts every call and hands back an unfired handle. *)
Definition quiet_amp : AMP := mkAMP (fun before _ _ => Return (unfired (length before))) [].

(** A transport whose [callRemote] raises on every call. *)
Definition broken_amp : AMP :=
  mkAMP (fun _ _ _ => Raise (ExcObj (builtin "ConnectionError") "connection lost")) [].

(** ** Sample values *)

Definition ValueError_class : PyObject := ClassObj (builtin "ValueError").
Definition boom : PyObject := ExcObj (builtin "ValueError") "boom".
Definition sample_tb : Traceback :=
  [mkFrame "test_it" "test_sample.py" 12; mkFrame "helper" "util.py" 7].

(** The value of a keyword argument of a call. *)
Fixpoint kwarg (name : string) (kwargs : Payload) : option AmpValue :=
  match kwargs with
  | [] => None
  | (k, v) :: rest => if String.eqb k name then Some v else kwarg name rest
  end.

(** ** Observing the store *)

Section Observations.

Context {B : Type} {TR : TestResult B}.

Open Scope py_scope.

(** The store with the reporter behind [self] replaced. *)
Definition put_reporter (h : Store B) (self : loc) (r : WorkerReporter B) : Store B :=
  mkStore (<[self := r]> (reporters h)) (contexts h) (lists h).

(** The store with the list behind [l] replaced. *)
Definition put_list (h : Store B) (l : loc) (xs : list Deferred) : Store B :=
  mkStore (reporters h) (contexts h) (<[l := xs]> (lists h)).

(** The handle [_call] records for the call [c] on the protocol [amp]: what
    [maybeDeferred] makes of building the arguments and calling
    [callRemote]. *)
Definition handle_of (c : Report) (amp : AMP) : Deferred :=
  match relay_of c with
  | Return (command, kwargs) =>
      match answer amp (sent amp) command kwargs with
      | Return d => d
      | Raise e => fail e
      end
  | Raise e => fail e
  end.

(** The protocol object after that: one more call sent, if the arguments
    could be built. *)
Definition amp_after (c : Report) (amp : AMP) : AMP :=
  match relay_of c with
  | Return (command, kwargs) => mkAMP (answer amp) (sent amp ++ [(command, kwargs)])
  | Raise _ => amp
  end.

(** [record] called once per handle, in order. *)
Fixpoint record_all (ctx : loc) (ds : list Deferred) : Py B unit :=
  match ds with
  | [] => ret tt
  | d :: ds => record ctx d ;;; record_all ctx ds
  end.

(** The operations of the module on the store. *)
Inductive Op :=
| OpNewReporter (init : B) (amp : AMP)
| OpGather (self : loc)
| OpEnter (ctx : loc)
| OpExit (ctx : loc) (excType excValue : option PyObject) (excTraceback : option Traceback)
| OpRecord (ctx : loc) (d : Deferred)
| OpReport (self : loc) (c : Report).

(** One operation, for its effect on the store. *)
Definition run_op (op : Op) (h : Store B) : option (Store B) :=
  match op with
  | OpNewReporter init amp => snd <$> new_WorkerReporter init amp h
  | OpGather self => snd <$> gatherReportingResults self h
  | OpEnter ctx => snd <$> __enter__ ctx h
  | OpExit ctx et ev tb => snd <$> __exit__ ctx et ev tb h
  | OpRecord ctx d => snd <$> record ctx d h
  | OpReport self c => snd <$> report self c h
  end.

(** Operations one after the other, whether they return or raise. *)
Fixpoint run_ops (ops : list Op) (h : Store B) : option (Store B) :=
  match ops with
  | [] => Some h
  | op :: ops =>
      match run_op op h with
      | Some h' => run_ops ops h'
      | None => None
      end
  end.

(** The calls sent so far through the protocol of the reporter behind
    [self]. *)
Definition sent_by (h : Store B) (self : loc) : option (list (Command * Payload)) :=
  (fun r => sent (ampProtocol r)) <$> reporters h !! self.

(** The reference a reporter holds to its active context manager. *)
Definition reporting_of (h : Store B) (self : loc) : option (option loc) :=
  _reporting <$> reporters h !! self.

(** The base-class bookkeeping of a reporter. *)
Definition bookkeeping_of (h : Store B) (self : loc) : option B :=
  bookkeeping <$> reporters h !! self.

End Observations.

(** ** Sample stores *)

(** One reporter (reference 0) on a transport, no context manager yet. *)
Definition store_with_reporter (amp : AMP) : Store Tally :=
  put_reporter empty_store 0 (mkWorkerReporter no_outcomes amp None).

(** The same with an active context manager (reference 0) whose list
    (reference 0) is empty. *)
Definition store_reporting (amp : AMP) : Store Tally :=
  mkStore {[ 0 := mkWorkerReporter no_outcomes amp (Some 0) ]}
          {[ 0 := mkReportingResults 0 0 ]}
          {[ 0 := [] ]}.

Definition t1 : TestCase := mkTest "t1".
Definition t2 : TestCase := mkTest "t2".

(** The reporter and the context manager of [store_reporting]. *)
Definition sample_reporter (amp : AMP) : WorkerReporter Tally :=
  mkWorkerReporter no_outcomes amp (Some 0).
Definition sample_context : ReportingResults := mkReportingResults 0 0.

(** A whole run on reporter 0: open a context, report a success and a skip
    inside its [with] block. *)
Definition two_reports_in_a_with_block : Py Tally unit :=
  (ctx <- gatherReportingResults 0 ;;
   with_ ctx (fun results =>
     report 0 (Success t1) ;;; report 0 (Skip t2 (StrObj "slow"))))%py.

(** An expected failure whose error is given as a [sys.exc_info()] triple. *)
Definition expected_failure_from_triple : Report :=
  ExpectedFailure t1 (Tuple3 ValueError_class boom sample_tb) None.

(** Two context managers opened on reporter 0, the first one exited, then
    an expected failure reported. *)
Definition report_after_stale_exit : Py Tally unit :=
  (ctx1 <- gatherReportingResults 0 ;;
   ctx2 <- gatherReportingResults 0 ;;
   __exit__ ctx1 None None None ;;;
   report 0 expected_failure_from_triple)%py.

(** What the examples look at after a call on reporter 0: how the call
    ended, the list behind reference 0, the reporter's [_reporting], the
    calls sent and the count of successes. *)
Definition observe {A} (r : option (outcome A * Store Tally)) :=
  match r with
  | Some (o, h) =>
      Some (o, lists h !! 0, reporting_of h 0, sent_by h 0,
            successes <$> bookkeeping_of h 0)
  | None => None
  end.

(** ** Runs of several reports *)

Section Runs.

Context {B : Type} {TR : TestResult B}.

Open Scope py_scope.

(** The reporting methods called one after the other; an exception ends the
    run. *)
Fixpoint report_all (self : loc) (cs : list Report) : Py B unit :=
  match cs with
  | [] => ret tt
  | c :: cs => report self c ;;; report_all self cs
  end.

(** The handles those calls record, on a protocol that starts as [amp]. *)
Fixpoint handles_all (cs : list Report) (amp : AMP) : list Deferred :=
  match cs with
  | [] => []
  | c :: cs => handle_of c amp :: handles_all cs (amp_after c amp)
  end.

(** The protocol object after those calls. *)
Fixpoint amp_after_all (cs : list Report) (amp : AMP) : AMP :=
  match cs with
  | [] => amp
  | c :: cs => amp_after_all cs (amp_after c amp)
  end.

(** The bookkeeping after the base-class methods of those calls. *)
Fixpoint super_all (cs : list Report) (b : B) : B :=
  match cs with
  | [] => b
  | c :: cs => super_all cs (fst (super_report c b))
  end.

(** The calls whose arguments can be built, in order. *)
Fixpoint relays (cs : list Report) : list (Command * Payload) :=
  match cs with
  | [] => []
  | c :: cs =>
      match relay_of c with
      | Return r => r :: relays cs
      | Raise _ => relays cs
      end
  end.

(** The command each method sends. *)
Definition command_of (c : Report) : Command :=
  match c with
  | Success _ => AddSuccess
  | Error _ _ => AddError
  | Failed _ _ => AddFailure
  | Skip _ _ => AddSkip
  | ExpectedFailure _ _ _ => AddExpectedFailure
  | UnexpectedSuccess _ _ => AddUnexpectedSuccess
  end.

(** The test each method is called with. *)
Definition test_of (c : Report) : TestCase :=
  match c with
  | Success test
  | Error test _
  | Failed test _
  | Skip test _
  | ExpectedFailure test _ _
  | UnexpectedSuccess test _ => test
  end.

End Runs.

(** ** Helpers of the credential tests

    From [twisted/test/test_newcred.py]: the avatar and realm the tests log
    into, and the stand-in for [pamauth.callIntoPAM]. *)

Definition AssertionError : PyObject := ExcObj (builtin "AssertionError") "".
Definition IndexError (msg : string) : PyObject := ExcObj (builtin "IndexError") msg.
Definition UnauthorizedLogin (msg : string) : PyObject :=
  ExcObj (mkClass "twisted.cred.error" "UnauthorizedLogin") msg.

(** [TestAvatar] *)
Record TestAvatar := mkTestAvatar {
  name : string;
  loggedIn : bool;
  loggedOut : bool
}.

(** [TestAvatar.__init__] *)
Definition TestAvatar_new (name : string) : TestAvatar := mkTestAvatar name false false.

(** [TestAvatar.login]: the [assert] fails on an avatar already logged in. *)
Definition login (self : TestAvatar) : outcome TestAvatar :=
  if loggedIn self
  then Raise AssertionError
  else Return (mkTestAvatar (name self) true (loggedOut self)).

(** [TestAvatar.logout] *)
Definition logout (self : TestAvatar) : TestAvatar :=
  mkTestAvatar (name self) (loggedIn self) true.

(** [TestRealm]: the dictionary [avatars].  An avatar object is only ever
    stored under its own id and never replaced, so the id stands for the
    object. *)
Abbreviation TestRealm := (gmap string TestAvatar).

Section Realm.

(** The interfaces a caller may ask for and what adapting an avatar to one
    gives: [interfaces[0](avatar)] is the business of [zope.interface] and
    the adapter registry, so it is left open here.  The adapter is given the
    key of the avatar, which stands for the avatar object. *)
Context {Interface Impl Mind : Type}.
Context (adapt : Interface -> string -> outcome Impl).

(** [TestRealm.__init__] *)
Definition TestRealm_new : TestRealm := ∅.

(** [TestRealm.requestAvatar]; the third component of the result, the bound
    method [avatar.logout], is given as the id of the avatar it belongs to. *)
Definition requestAvatar (avatarId : string) (mind : Mind)
    (interfaces : list Interface) (self : TestRealm)
  : outcome (Interface * Impl * string) * TestRealm :=
  let '(avatar, self) :=
    match self !! avatarId with
    | Some avatar => (avatar, self)
    | None => (TestAvatar_new avatarId, <[avatarId := TestAvatar_new avatarId]> self)
    end in
  match login avatar with
  | Raise e => (Raise e, self)
  | Return avatar =>
      let self := <[avatarId := avatar]> self in
      match interfaces with
      | [] => (Raise (IndexError "tuple index out of range"), self)
      | iface :: _ =>
          match adapt iface avatarId with
          | Return impl => (Return (iface, impl, avatarId), self)
          | Raise e => (Raise e, self)
          end
      end
  end.

(** Calling the [logout] that [requestAvatar] returned. *)
Definition call_logout (avatarId : string) (self : TestRealm) : TestRealm :=
  alter logout avatarId self.

End Realm.

(** Every avatar of the realm is stored under its own name and has been
    logged in. *)
Definition realm_ok (self : gmap string TestAvatar) : Prop :=
  forall avatarId avatar,
    self !! avatarId = Some avatar ->
    name avatar = avatarId /\ loggedIn avatar = true.

(** The one adapter the test module registers,
    [registerAdapter(Testable, TestAvatar, ITestable)]: [ITestable(avatar)]
    is a [Testable] whose [original] is the avatar; for the sample runs any
    other interface is taken not to adapt. *)
Definition adapt_Testable (iface : string) (avatarId : string) : outcome string :=
  if String.eqb iface "ITestable"
  then Return avatarId
  else Raise (ExcObj (builtin "TypeError") "Could not adapt").

(** The questions [callIntoPAM] puts to the conversation function. *)
Definition pam_questions : list (Z * string) :=
  [(1%Z, "Password"); (2%Z, "Message w/ Input"); (3%Z, "Message w/o Input")].

(** The replies it accepts. *)
Definition pam_replies : list (string * Z) :=
  [("password", 0%Z); ("entry", 0%Z); ("", 0%Z)].

Definition replies_eqb (a b : list (string * Z)) : bool :=
  bool_decide (a = b).

(** [PluggableAuthenticationModulesTests.callIntoPAM]; [repr] of the replies
    only ends up in the message of the exception and is left open. *)
Definition callIntoPAM (repr : list (string * Z) -> string)
    (service user : string)
    (conv : list (Z * string) -> outcome (list (string * Z))) : outcome Z :=
  if negb (String.eqb service "Twisted")
  then Raise (UnauthorizedLogin ("bad service: " +:+ service))
  else if negb (String.eqb user "testuser")
  then Raise (UnauthorizedLogin ("bad username: " +:+ user))
  else
    match conv pam_questions with
    | Raise e => Raise e
    | Return replies =>
        if negb (replies_eqb replies pam_replies)
        then Raise (UnauthorizedLogin ("bad conversion: " +:+ repr replies))
        else Return 1%Z
    end.

(** [KeyError(key)] *)
Definition KeyError (key : string) : PyObject := ExcObj (builtin "KeyError") key.

(** The comprehension [[(d[t], 0) for t, q in questions]]: the question
    types are looked up in order, and a type [d] does not have raises
    [KeyError]. *)
Fixpoint replies_of (d : gmap Z string) (questions : list (Z * string))
  : outcome (list (string * Z)) :=
  match questions with
  | [] => Return []
  | (t, q) :: questions =>
      match d !! t with
      | None => Raise (KeyError (pretty t))
      | Some answer =>
          match replies_of d questions with
          | Return replies => Return ((answer, 0%Z) :: replies)
          | Raise e => Raise e
          end
      end
  end.

(** Modelled from the spec: [defer.succeed(result)], a [Deferred] that
    already holds [result]. *)
Inductive Succeeded (A : Type) :=
| succeed_with (result : A).
Arguments succeed_with {A} result.

(** [PluggableAuthenticationModulesTests._makeConv]: the conversation
    function made from the dictionary [d]; it returns
    [defer.succeed] of the comprehension. *)
Definition _makeConv (d : gmap Z string) (questions : list (Z * string))
  : outcome (Succeeded (list (string * Z))) :=
  match replies_of d questions with
  | Return replies => Return (succeed_with replies)
  | Raise e => Raise e
  end.

(** ** Failure normalization *)

(** The three strings a frame contributes. *)
Definition frame_entries (frame : Frame) : list string :=
  [co_name frame; co_filename frame; pretty (lineno frame)].

Lemma fold_extend_flat_map (fs : list Frame) (acc : list string) :
  fold_left
    (fun acc frame => acc ++ [co_name frame; co_filename frame; pretty (lineno frame)])
    fs acc
  = acc ++ flat_map frame_entries fs.
Proof.
  revert acc. induction fs as [|fr fs IH]; intros acc; simpl.
  - by rewrite app_nil_r.
  - rewrite IH. by rewrite <- app_assoc.
Qed.

Lemma _getFrames_flat_map (failure : Failure) :
  _getFrames failure = flat_map frame_entries (frames failure).
Proof. unfold _getFrames. by rewrite fold_extend_flat_map. Qed.

Lemma flat_map_entries_length (fs : list Frame) :
  length (flat_map frame_entries fs) = 3 * length fs.
Proof. induction fs as [|fr fs IH]; simpl; [done | rewrite IH; lia]. Qed.

Lemma flat_map_entries_lookup (fs : list Frame) (i : nat) :
  flat_map frame_entries fs !! (3 * i) = co_name <$> fs !! i /\
  flat_map frame_entries fs !! (3 * i + 1) = co_filename <$> fs !! i /\
  flat_map frame_entries fs !! (3 * i + 2) = (fun fr => pretty (lineno fr)) <$> fs !! i.
Proof.
  revert i. induction fs as [|fr fs IH]; intros i.
  - simpl. by rewrite !lookup_nil.
  - destruct i as [|i].
    + simpl. done.
    + replace (3 * S i) with (S (S (S (3 * i)))) by lia.
      simpl. apply IH.
Qed.

(** C5: for a failure with [n] frames, [_getFrames] gives a list of [3 * n]
    strings: entry [3 * i] is the function name of frame [i], entry
    [3 * i + 1] its file name and entry [3 * i + 2] its line number written
    out in decimal, for the frames in the order the failure holds them, and
    nothing else. *)
Theorem getFrames_three_per_frame (failure : Failure) :
  length (_getFrames failure) = 3 * length (frames failure) /\
  _getFrames failure = flat_map frame_entries (frames failure) /\
  forall i : nat,
    _getFrames failure !! (3 * i) = co_name <$> frames failure !! i /\
    _getFrames failure !! (3 * i + 1) = co_filename <$> frames failure !! i /\
    _getFrames failure !! (3 * i + 2)
      = (fun fr => pretty (lineno fr)) <$> frames failure !! i.
Proof.
  rewrite _getFrames_flat_map. split; [apply flat_map_entries_length|].
  split; [done|]. intros i. apply flat_map_entries_lookup.
Qed.

Example getFrames_sample :
  _getFrames (Failure_new boom ValueError_class sample_tb)
  = ["test_it"; "test_sample.py"; "12"; "helper"; "util.py"; "7"].
Proof. reflexivity. Qed.

(** C4, as stated, fails: the triple (instance, type, traceback) is wrapped
    with the instance as the failure's type and the type as its value, so the
    class name cannot be computed, while the pre-wrapped failure of the same
    exception normalizes to its message and qualified class name. *)
Lemma normalize_instance_first_differs :
  normalize (Tuple3 boom ValueError_class sample_tb)
    = Raise (no_attribute "ValueError" "__name__") /\
  normalize (Wrapped (Failure_new boom ValueError_class sample_tb))
    = Return ("boom", "builtins.ValueError",
              ["test_it"; "test_sample.py"; "12"; "helper"; "util.py"; "7"]) /\
  normalize (Tuple3 boom ValueError_class sample_tb)
    <> normalize (Wrapped (Failure_new boom ValueError_class sample_tb)).
Proof. split; [reflexivity|]. split; [reflexivity|]. discriminate. Qed.

(** C4, amended: a triple in the order of [sys.exc_info()], (type, instance,
    traceback), is wrapped into the failure of that instance, type and
    traceback, and normalizes exactly as that failure does; when the type is
    a class, both give the instance's message, the module-qualified class
    name and the flattened frames. *)
Theorem normalize_exc_info_as_wrapped
    (exc_type exc_value : PyObject) (tb : Traceback) (c : PyClass) :
  _getFailure (Tuple3 exc_type exc_value tb) = Failure_new exc_value exc_type tb /\
  _getFailure (Wrapped (Failure_new exc_value exc_type tb))
    = Failure_new exc_value exc_type tb /\
  normalize (Tuple3 exc_type exc_value tb)
    = normalize (Wrapped (Failure_new exc_value exc_type tb)) /\
  normalize (Tuple3 (ClassObj c) exc_value tb)
    = Return (str exc_value, cls_module c +:+ "." +:+ cls_name c,
              flat_map frame_entries tb).
Proof.
  repeat split. unfold normalize. simpl. by rewrite _getFrames_flat_map.
Qed.

(** ** The store operations, step by step *)

Section Steps.

Context {B : Type} {TR : TestResult B}.

Open Scope py_scope.

Lemma bind_Return {A C} (m : Py B A) (k : A -> Py B C) h a h' :
  m h = Some (Return a, h') -> bind m k h = k a h'.
Proof. unfold bind. by intros ->. Qed.

Lemma bind_Raise {A C} (m : Py B A) (k : A -> Py B C) h e h' :
  m h = Some (Raise e, h') -> bind m k h = Some (Raise e, h').
Proof. unfold bind. by intros ->. Qed.

Lemma bind_None {A C} (m : Py B A) (k : A -> Py B C) h :
  m h = None -> bind m k h = None.
Proof. unfold bind. by intros ->. Qed.

Lemma lift_run {A} (o : outcome A) (h : Store B) : lift o h = Some (o, h).
Proof. by destruct o. Qed.

Lemma the_reporter_run self (h : Store B) rep :
  reporters h !! self = Some rep -> the_reporter self h = Some (Return rep, h).
Proof. unfold the_reporter. by intros ->. Qed.

Lemma set_reporter_run self f (h : Store B) rep :
  reporters h !! self = Some rep ->
  set_reporter self f h = Some (Return tt, put_reporter h self (f rep)).
Proof. unfold set_reporter. by intros ->. Qed.

Lemma the_context_run ctx (h : Store B) c :
  contexts h !! ctx = Some c -> the_context ctx h = Some (Return c, h).
Proof. unfold the_context. by intros ->. Qed.

Lemma list_append_run l x (h : Store B) xs :
  lists h !! l = Some xs ->
  list_append l x h = Some (Return tt, put_list h l (xs ++ [x])).
Proof. unfold list_append. by intros ->. Qed.

Lemma put_reporter_lookup (h : Store B) self r :
  reporters (put_reporter h self r) !! self = Some r.
Proof. simpl. apply lookup_insert_eq. Qed.

Lemma put_reporter_twice (h : Store B) self r r' :
  put_reporter (put_reporter h self r) self r' = put_reporter h self r'.
Proof. unfold put_reporter. simpl. by rewrite insert_insert_eq. Qed.

Lemma super_run m self (h : Store B) rep :
  reporters h !! self = Some rep ->
  super m self h
  = Some (snd (m (bookkeeping rep)),
          put_reporter h self
            (mkWorkerReporter (fst (m (bookkeeping rep))) (ampProtocol rep)
               (_reporting rep))).
Proof.
  intros Hrep. unfold super.
  rewrite (bind_Return _ _ _ _ _ (the_reporter_run _ _ _ Hrep)).
  destruct (m (bookkeeping rep)) as [b o]. simpl.
  rewrite (bind_Return _ _ _ _ _ (set_reporter_run _ _ _ _ Hrep)).
  apply lift_run.
Qed.

Lemma callRemote_run self command kwargs (h : Store B) rep :
  reporters h !! self = Some rep ->
  callRemote self command kwargs h
  = Some (answer (ampProtocol rep) (sent (ampProtocol rep)) command kwargs,
          put_reporter h self
            (mkWorkerReporter (bookkeeping rep)
               (mkAMP (answer (ampProtocol rep))
                  (sent (ampProtocol rep) ++ [(command, kwargs)]))
               (_reporting rep))).
Proof.
  intros Hrep. unfold callRemote.
  rewrite (bind_Return _ _ _ _ _ (the_reporter_run _ _ _ Hrep)).
  rewrite (bind_Return _ _ _ _ _ (set_reporter_run _ _ _ _ Hrep)).
  apply lift_run.
Qed.

Lemma record_run ctx d (h : Store B) :
  record ctx d h
  = match contexts h !! ctx with
    | Some c =>
        match lists h !! _results c with
        | Some xs => Some (Return tt, put_list h (_results c) (xs ++ [d]))
        | None => None
        end
    | None => None
    end.
Proof.
  unfold record, bind, the_context, list_append.
  destruct (contexts h !! ctx) as [c|]; [|done].
  by destruct (lists h !! _results c).
Qed.

Lemma _call_outside self f (h : Store B) rep :
  reporters h !! self = Some rep ->
  _reporting rep = None ->
  _call self f h = Some (Raise usage_error, h).
Proof.
  intros Hrep Hnone. unfold _call.
  rewrite (bind_Return _ _ _ _ _ (the_reporter_run _ _ _ Hrep)).
  by rewrite Hnone.
Qed.

Lemma _call_inside self f (h : Store B) rep ctx o h' :
  reporters h !! self = Some rep ->
  _reporting rep = Some ctx ->
  f h = Some (o, h') ->
  _call self f h
  = match contexts h' !! ctx with
    | Some c =>
        match lists h' !! _results c with
        | Some xs =>
            Some (Return tt,
                  put_list h' (_results c)
                    (xs ++ [match o with Return d => d | Raise e => fail e end]))
        | None => None
        end
    | None => None
    end.
Proof.
  intros Hrep Hctx Hf. unfold _call.
  rewrite (bind_Return _ _ _ _ _ (the_reporter_run _ _ _ Hrep)).
  rewrite Hctx.
  assert (maybeDeferred f h
          = Some (Return (match o with Return d => d | Raise e => fail e end), h'))
    as Hm.
  { unfold maybeDeferred. rewrite Hf. by destruct o. }
  rewrite (bind_Return _ _ _ _ _ Hm).
  apply record_run.
Qed.

Lemma _call_callRemote self command kwargs (h : Store B) rep :
  reporters h !! self = Some rep ->
  _call self (callRemote self command kwargs) h
  = match _reporting rep with
    | None => Some (Raise usage_error, h)
    | Some ctx =>
        match contexts h !! ctx with
        | Some cm =>
            match lists h !! _results cm with
            | Some xs =>
                Some (Return tt,
                      put_list
                        (put_reporter h self
                           (mkWorkerReporter (bookkeeping rep)
                              (mkAMP (answer (ampProtocol rep))
                                 (sent (ampProtocol rep) ++ [(command, kwargs)]))
                              (_reporting rep)))
                        (_results cm)
                        (xs ++ [match answer (ampProtocol rep) (sent (ampProtocol rep))
                                        command kwargs with
                                | Return d => d
                                | Raise e => fail e
                                end]))
            | None => None
            end
        | None => None
        end
    end.
Proof.
  intros Hrep. destruct (_reporting rep) as [ctx|] eqn:Hctx.
  - rewrite (_call_inside _ _ _ _ _ _ _ Hrep Hctx (callRemote_run _ _ _ _ _ Hrep)).
    simpl. by rewrite Hctx.
  - exact (_call_outside _ _ _ _ Hrep Hctx).
Qed.

Lemma _addErrorFallible_run self testName errorObj (h : Store B) rep :
  reporters h !! self = Some rep ->
  _addErrorFallible self testName errorObj h
  = match normalize errorObj with
    | Return (errorStr, errorClass, frames) =>
        callRemote self AddError
          [("testName", AmpString testName);
           ("error", AmpString errorStr);
           ("errorClass", AmpString errorClass);
           ("frames", AmpListOfString frames)] h
    | Raise e => Some (Raise e, h)
    end.
Proof.
  intros Hrep. unfold _addErrorFallible, normalize, bind.
  rewrite lift_run. by destruct (qual (type (_getFailure errorObj))).
Qed.

(** Closes a goal comparing two runs of [_call] once both sides are matches
    on the same lookups. *)
Ltac finish_call :=
  repeat match goal with
    | |- context [match ?o with Some _ => _ | None => _ end] =>
        destruct o; [|done]
    end;
  repeat match goal with
    | x := put_reporter _ _ _ |- _ => subst x
    end;
  rewrite ?put_reporter_twice; try done.

(** What [report] does, in one equation: the base class first, then what the
    method computes itself, then [_call]. *)
Lemma report_run self c (h : Store B) rep :
  reporters h !! self = Some rep ->
  report self c h
  = let b := fst (super_report c (bookkeeping rep)) in
    let h1 :=
      put_reporter h self (mkWorkerReporter b (ampProtocol rep) (_reporting rep)) in
    match snd (super_report c (bookkeeping rep)) with
    | Raise e => Some (Raise e, h1)
    | Return _ =>
        match before_call c with
        | Raise e => Some (Raise e, h1)
        | Return _ =>
            match _reporting rep with
            | None => Some (Raise usage_error, h1)
            | Some ctx =>
                match contexts h !! ctx with
                | Some cm =>
                    match lists h !! _results cm with
                    | Some xs =>
                        Some (Return tt,
                              put_list
                                (put_reporter h self
                                   (mkWorkerReporter b
                                      (amp_after c (ampProtocol rep)) (Some ctx)))
                                (_results cm)
                                (xs ++ [handle_of c (ampProtocol rep)]))
                    | None => None
                    end
                | None => None
                end
            end
        end
    end.
Proof.
  intros Hrep.
  pose proof (super_run (super_report c) self h rep Hrep) as Hs.
  destruct (super_report c (bookkeeping rep)) as [b o] eqn:Hsuper.
  simpl in Hs. simpl fst. simpl snd. cbv zeta.
  set (h1 := put_reporter h self
               (mkWorkerReporter b (ampProtocol rep) (_reporting rep))) in *.
  assert (reporters h1 !! self
          = Some (mkWorkerReporter b (ampProtocol rep) (_reporting rep))) as Hrep1
    by apply put_reporter_lookup.
  destruct c; simpl in Hsuper; simpl in Hs; simpl report.
  all: unfold addSuccess, addError, addFailure, addSkip, addExpectedFailure,
         addUnexpectedSuccess.
  all: destruct o as [[]|e];
         [rewrite (bind_Return _ _ _ _ _ Hs) | by rewrite (bind_Raise _ _ _ _ _ Hs)].
  all: simpl before_call.
  all: unfold handle_of, amp_after; simpl relay_of.
  - rewrite (_call_callRemote _ _ _ _ _ Hrep1). simpl. finish_call.
  - destruct (_reporting rep) as [ctx|] eqn:Hctx;
      [|exact (_call_outside _ _ _ _ Hrep1 eq_refl)].
    pose proof (_addErrorFallible_run self (test_id test) error h1 _ Hrep1) as Hf.
    destruct (normalize error) as [[[errorStr errorClass] frames]|e].
    + rewrite (callRemote_run _ _ _ _ _ Hrep1) in Hf.
      rewrite (_call_inside _ _ _ _ _ _ _ Hrep1 eq_refl Hf). simpl. finish_call.
    + rewrite (_call_inside _ _ _ _ _ _ _ Hrep1 eq_refl Hf). simpl. finish_call.
  - unfold bind at 1. rewrite lift_run. unfold normalize.
    destruct (qual (type (_getFailure failure))) as [failClass|e]; [|done].
    rewrite (_call_callRemote _ _ _ _ _ Hrep1). simpl. finish_call.
  - rewrite (_call_callRemote _ _ _ _ _ Hrep1). simpl. finish_call.
  - unfold bind at 1. rewrite lift_run.
    destruct (error_getErrorMessage error) as [errorMessage|e]; [|done].
    rewrite (_call_callRemote _ _ _ _ _ Hrep1). simpl. finish_call.
  - rewrite (_call_callRemote _ _ _ _ _ Hrep1). simpl. finish_call.
Qed.

Lemma __enter___run ctx (h : Store B) cm :
  contexts h !! ctx = Some cm ->
  __enter__ ctx h = Some (Return (_results cm), h).
Proof.
  intros Hcm. unfold __enter__.
  by rewrite (bind_Return _ _ _ _ _ (the_context_run _ _ _ Hcm)).
Qed.

Lemma __exit___run ctx et ev tb (h : Store B) cm rep :
  contexts h !! ctx = Some cm ->
  reporters h !! _reporter cm = Some rep ->
  __exit__ ctx et ev tb h
  = Some (Return false,
          put_reporter h (_reporter cm)
            (mkWorkerReporter (bookkeeping rep) (ampProtocol rep) None)).
Proof.
  intros Hcm Hrep. unfold __exit__.
  rewrite (bind_Return _ _ _ _ _ (the_context_run _ _ _ Hcm)).
  by rewrite (bind_Return _ _ _ _ _ (set_reporter_run _ _ _ _ Hrep)).
Qed.

Lemma gatherReportingResults_run self (h : Store B) rep :
  reporters h !! self = Some rep ->
  gatherReportingResults self h
  = Some (Return (fresh (dom (contexts h))),
          mkStore
            (<[self := mkWorkerReporter (bookkeeping rep) (ampProtocol rep)
                         (Some (fresh (dom (contexts h))))]> (reporters h))
            (<[fresh (dom (contexts h))
                 := mkReportingResults self (fresh (dom (lists h)))]> (contexts h))
            (<[fresh (dom (lists h)) := []]> (lists h))).
Proof.
  intros Hrep. unfold gatherReportingResults, new_ReportingResults, new_list, bind.
  unfold set_reporter. simpl. by rewrite Hrep.
Qed.

Lemma fresh_lookup_None {V} (m : gmap loc V) : m !! fresh (dom m) = None.
Proof. apply not_elem_of_dom. apply is_fresh. Qed.

Lemma super_undefined m self (h : Store B) :
  reporters h !! self = None -> super m self h = None.
Proof. intros Hnone. unfold super, bind, the_reporter. by rewrite Hnone. Qed.

Lemma report_undefined self c (h : Store B) :
  reporters h !! self = None -> report self c h = None.
Proof.
  intros Hnone. destruct c; simpl;
    unfold addSuccess, addError, addFailure, addSkip, addExpectedFailure,
      addUnexpectedSuccess;
    by rewrite (bind_None _ _ _ (super_undefined _ _ _ Hnone)).
Qed.

Lemma record_all_run ctx ds (h : Store B) cm xs :
  contexts h !! ctx = Some cm ->
  lists h !! _results cm = Some xs ->
  exists h',
    record_all ctx ds h = Some (Return tt, h') /\
    lists h' !! _results cm = Some (xs ++ ds) /\
    (forall l, l <> _results cm -> lists h' !! l = lists h !! l) /\
    contexts h' = contexts h /\
    reporters h' = reporters h.
Proof.
  revert h xs. induction ds as [|d ds IH]; intros h xs Hcm Hxs.
  - exists h. simpl. by rewrite app_nil_r.
  - pose proof (record_run ctx d h) as Hrec. rewrite Hcm, Hxs in Hrec.
    destruct (IH (put_list h (_results cm) (xs ++ [d])) (xs ++ [d]))
      as (h' & Hrun & Hl & Hother & Hc & Hr).
    { done. }
    { simpl. apply lookup_insert_eq. }
    exists h'. simpl. rewrite (bind_Return _ _ _ _ _ Hrec).
    split; [done|]. split; [by rewrite Hl, <- app_assoc|].
    split; [|done]. intros l Hne. rewrite (Hother l Hne). simpl.
    by rewrite lookup_insert_ne.
Qed.

(** Every operation leaves each list object with what it held, in the same
    order, possibly followed by new entries. *)
Lemma run_op_extends op (h h' : Store B) l xs :
  run_op op h = Some h' ->
  lists h !! l = Some xs ->
  exists ys, lists h' !! l = Some (xs ++ ys).
Proof.
  intros Hrun Hxs.
  assert (lists h !! l = Some (xs ++ [])) as Hsame by by rewrite app_nil_r.
  destruct op as [init amp|self|ctx|ctx et ev tb|ctx d|self c]; simpl in Hrun.
  - injection Hrun as <-. by exists [].
  - unfold gatherReportingResults, new_ReportingResults, new_list, bind,
      set_reporter in Hrun. simpl in Hrun.
    destruct (reporters h !! self); [|done]. simpl in Hrun.
    injection Hrun as <-. simpl. exists [].
    rewrite lookup_insert_ne; [done|].
    intros <-. by rewrite fresh_lookup_None in Hxs.
  - unfold __enter__, bind, the_context in Hrun.
    destruct (contexts h !! ctx); [|done]. injection Hrun as <-. by exists [].
  - unfold __exit__, bind, the_context, set_reporter in Hrun.
    destruct (contexts h !! ctx) as [cm|]; [|done].
    destruct (reporters h !! _reporter cm); [|done].
    injection Hrun as <-. by exists [].
  - rewrite record_run in Hrun.
    destruct (contexts h !! ctx) as [cm|]; [|done].
    destruct (lists h !! _results cm) as [zs|] eqn:Hzs; [|done].
    injection Hrun as <-. simpl.
    destruct (decide (_results cm = l)) as [Heq|Hne].
    + rewrite Heq in *. rewrite lookup_insert_eq. exists [d]. congruence.
    + rewrite lookup_insert_ne by done. by exists [].
  - destruct (reporters h !! self) as [rep|] eqn:Hrep;
      [|by rewrite report_undefined in Hrun].
    rewrite (report_run _ _ _ _ Hrep) in Hrun. cbv zeta in Hrun.
    destruct (snd (super_report c (bookkeeping rep)));
      [|injection Hrun as <-; by exists []].
    destruct (before_call c); [|injection Hrun as <-; by exists []].
    destruct (_reporting rep) as [ctx|]; [|injection Hrun as <-; by exists []].
    destruct (contexts h !! ctx) as [cm|]; [|done].
    destruct (lists h !! _results cm) as [zs|] eqn:Hzs; [|done].
    injection Hrun as <-. simpl.
    destruct (decide (_results cm = l)) as [Heq|Hne].
    + rewrite Heq in *. rewrite lookup_insert_eq.
      assert (zs = xs) as -> by congruence. by eexists [_].
    + rewrite lookup_insert_ne by done. by exists [].
Qed.

Lemma run_ops_extends ops (h h' : Store B) l xs :
  run_ops ops h = Some h' ->
  lists h !! l = Some xs ->
  exists ys, lists h' !! l = Some (xs ++ ys).
Proof.
  revert h xs. induction ops as [|op ops IH]; intros h xs Hrun Hxs; simpl in Hrun.
  - injection Hrun as <-. exists []. by rewrite app_nil_r.
  - destruct (run_op op h) as [h1|] eqn:Hop; [|done].
    destruct (run_op_extends _ _ _ _ _ Hop Hxs) as [ys Hys].
    destruct (IH _ _ Hrun Hys) as [zs Hzs].
    exists (ys ++ zs). by rewrite app_assoc.
Qed.

(** A [with] statement ends the way its body ended, after [__exit__]. *)
Lemma with_run ctx (body : loc -> Py B unit) (h0 h : Store B) o cm rep :
  contexts h0 !! ctx = Some cm ->
  body (_results cm) h0 = Some (o, h) ->
  contexts h !! ctx = Some cm ->
  reporters h !! _reporter cm = Some rep ->
  with_ ctx body h0
  = Some (o,
          put_reporter h (_reporter cm)
            (mkWorkerReporter (bookkeeping rep) (ampProtocol rep) None)).
Proof.
  intros Hcm0 Hbody Hcm Hrep. unfold with_.
  rewrite (bind_Return _ _ _ _ _ (__enter___run _ _ _ Hcm0)).
  rewrite Hbody. destruct o as [[]|e].
  - by rewrite (bind_Return _ _ _ _ _
                  (__exit___run _ None None None _ _ _ Hcm Hrep)).
  - by rewrite (bind_Return _ _ _ _ _
                  (__exit___run _ (Some (type_of e)) (Some e) (Some []) _ _ _
                     Hcm Hrep)).
Qed.

(** *** The store stays closed *)

Lemma closed_empty : closed (empty_store (B := B)).
Proof. split; intros *; simpl; by rewrite lookup_empty. Qed.

Lemma closed_put_reporter (h : Store B) self r :
  closed h ->
  (forall s, _reporting r = Some s -> is_Some (contexts h !! s)) ->
  closed (put_reporter h self r).
Proof.
  intros [Hr Hc] Hnew. split; simpl.
  - intros r0 rep s Hlook Hs.
    destruct (decide (self = r0)) as [->|Hne].
    + rewrite lookup_insert_eq in Hlook. injection Hlook as <-. by apply Hnew.
    + rewrite lookup_insert_ne in Hlook by done. by apply (Hr r0 rep).
  - intros s c Hlook. destruct (Hc s c Hlook) as [Hrep Hl]. split; [|done].
    apply lookup_insert_is_Some. destruct (decide (self = _reporter c)); eauto.
Qed.

Lemma closed_put_list (h : Store B) l xs :
  closed h -> closed (put_list h l xs).
Proof.
  intros [Hr Hc]. split; simpl; [done|].
  intros s c Hlook. destruct (Hc s c Hlook) as [Hrep Hl]. split; [done|].
  apply lookup_insert_is_Some. destruct (decide (l = _results c)); eauto.
Qed.

Lemma closed_new_context (h : Store B) self rep s l :
  closed h ->
  reporters h !! self = Some rep ->
  closed (mkStore (reporters h)
            (<[s := mkReportingResults self l]> (contexts h))
            (<[l := []]> (lists h))).
Proof.
  intros [Hr Hc] Hrep. split; simpl.
  - intros r0 rep0 s0 Hlook Hs. apply lookup_insert_is_Some.
    destruct (decide (s = s0)); [by left|right]. split; [done|].
    by apply (Hr r0 rep0).
  - intros s0 c Hlook.
    destruct (decide (s = s0)) as [->|Hne].
    + rewrite lookup_insert_eq in Hlook. injection Hlook as <-. simpl.
      split; [by rewrite Hrep|]. by rewrite lookup_insert_eq.
    + rewrite lookup_insert_ne in Hlook by done.
      destruct (Hc s0 c Hlook) as [Hrep0 Hl]. split; [done|].
      apply lookup_insert_is_Some. destruct (decide (l = _results c)); eauto.
Qed.

(** Every operation takes a closed store to a closed store. *)
Lemma closed_run_op op (h h' : Store B) :
  closed h -> run_op op h = Some h' -> closed h'.
Proof.
  intros Hclosed Hrun.
  destruct op as [init amp|self|ctx|ctx et ev tb|ctx d|self c]; simpl in Hrun.
  - injection Hrun as <-.
    by apply (closed_put_reporter h _ (mkWorkerReporter init amp None)).
  - destruct (reporters h !! self) as [rep|] eqn:Hrep.
    + rewrite (gatherReportingResults_run _ _ _ Hrep) in Hrun.
      injection Hrun as <-.
      refine (closed_put_reporter
                (mkStore (reporters h)
                   (<[fresh (dom (contexts h))
                        := mkReportingResults self (fresh (dom (lists h)))]>
                      (contexts h))
                   (<[fresh (dom (lists h)) := []]> (lists h)))
                self
                (mkWorkerReporter (bookkeeping rep) (ampProtocol rep)
                   (Some (fresh (dom (contexts h))))) _ _).
      * by apply (closed_new_context h self rep).
      * simpl. intros s [= <-]. by rewrite lookup_insert_eq.
    + unfold gatherReportingResults, new_ReportingResults, new_list, bind,
        set_reporter in Hrun. simpl in Hrun. by rewrite Hrep in Hrun.
  - unfold __enter__, bind, the_context in Hrun.
    destruct (contexts h !! ctx); [|done]. by injection Hrun as <-.
  - unfold __exit__, bind, the_context, set_reporter in Hrun.
    destruct (contexts h !! ctx) as [cm|]; [|done].
    destruct (reporters h !! _reporter cm) as [rep|]; [|done].
    injection Hrun as <-.
    by apply (closed_put_reporter h _
                (mkWorkerReporter (bookkeeping rep) (ampProtocol rep) None)).
  - rewrite record_run in Hrun.
    destruct (contexts h !! ctx) as [cm|]; [|done].
    destruct (lists h !! _results cm) as [zs|]; [|done].
    injection Hrun as <-. by apply closed_put_list.
  - destruct (reporters h !! self) as [rep|] eqn:Hrep;
      [|by rewrite report_undefined in Hrun].
    rewrite (report_run _ _ _ _ Hrep) in Hrun. cbv zeta in Hrun.
    assert (forall b amp,
              closed (put_reporter h self (mkWorkerReporter b amp (_reporting rep))))
      as Hput.
    { intros b amp. apply closed_put_reporter; [done|]. simpl.
      intros s Hs. destruct Hclosed as [Hr _]. by apply (Hr self rep). }
    destruct (snd (super_report c (bookkeeping rep)));
      [|injection Hrun as <-; apply Hput].
    destruct (before_call c); [|injection Hrun as <-; apply Hput].
    destruct (_reporting rep) as [ctx|] eqn:Hctx; [|injection Hrun as <-; apply Hput].
    destruct (contexts h !! ctx) as [cm|]; [|done].
    destruct (lists h !! _results cm) as [zs|]; [|done].
    injection Hrun as <-. apply closed_put_list, Hput.
Qed.

Lemma closed_run_ops ops (h h' : Store B) :
  closed h -> run_ops ops h = Some h' -> closed h'.
Proof.
  revert h. induction ops as [|op ops IH]; intros h Hclosed Hrun; simpl in Hrun.
  - by injection Hrun as <-.
  - destruct (run_op op h) as [h1|] eqn:Hop; [|done].
    apply (IH h1); [|done]. by apply (closed_run_op op h).
Qed.

End Steps.

(** ** Reporting outside and inside a context *)

Section Reporting.

Context {B : Type} {TR : TestResult B}.

(** C1, amended: when the reporter has no active context manager, each of
    the six methods raises to its caller, sends nothing through the protocol
    and records nothing: the protocol object of every reporter, the lists
    and the context managers are as before.  The exception is the
    [ValueError] of [_call] when the base-class method and what the method
    computes itself before [_call] return normally; it is the exception of
    the base-class method when that raises, and otherwise the exception of
    what the method computes before [_call] (the class name in
    [addFailure], the message in [addExpectedFailure]). *)
Theorem report_outside_context self (c : Report) (h : Store B) rep :
  reporters h !! self = Some rep ->
  _reporting rep = None ->
  exists e h',
    report self c h = Some (Raise e, h') /\
    (forall r, sent_by h' r = sent_by h r) /\
    lists h' = lists h /\
    contexts h' = contexts h /\
    reporting_of h' self = Some None /\
    (snd (super_report c (bookkeeping rep)) = Return tt ->
     before_call c = Return tt ->
     e = usage_error) /\
    (forall e1, snd (super_report c (bookkeeping rep)) = Raise e1 -> e = e1) /\
    (snd (super_report c (bookkeeping rep)) = Return tt ->
     forall e2, before_call c = Raise e2 -> e = e2).
Proof.
  intros Hrep Hnone.
  pose proof (report_run self c h rep Hrep) as Hrun. cbv zeta in Hrun.
  rewrite Hnone in Hrun.
  set (h1 := put_reporter h self
               (mkWorkerReporter (fst (super_report c (bookkeeping rep)))
                  (ampProtocol rep) None)) in *.
  assert (forall r, sent_by h1 r = sent_by h r) as Hsent.
  { intros r. unfold sent_by, h1. simpl.
    destruct (decide (self = r)) as [->|Hne].
    - by rewrite lookup_insert_eq, Hrep.
    - by rewrite lookup_insert_ne. }
  assert (reporting_of h1 self = Some None) as Hnow.
  { unfold reporting_of, h1. simpl. by rewrite lookup_insert_eq. }
  destruct (snd (super_report c (bookkeeping rep))) as [[]|e1] eqn:Hsuper.
  - destruct (before_call c) as [[]|e2] eqn:Hbefore.
    + exists usage_error, h1. repeat split; try done.
    + exists e2, h1. repeat split; try done. intros; congruence.
  - exists e1, h1. repeat split; try done. intros; congruence.
Qed.

(** A closed store holds the context manager of every reporter and the list
    of every context manager. *)
Lemma closed_reporting (h : Store B) self rep ctx :
  closed h ->
  reporters h !! self = Some rep ->
  _reporting rep = Some ctx ->
  exists cm xs, contexts h !! ctx = Some cm /\ lists h !! _results cm = Some xs.
Proof.
  intros [Hr Hc] Hrep Hctx.
  destruct (Hr _ _ _ Hrep Hctx) as [cm Hcm].
  destruct (Hc _ _ Hcm) as [_ [xs Hxs]]. eauto.
Qed.

(** C2, amended: whatever the reporter's [_reporting] is, each of the six
    methods leaves the base-class bookkeeping exactly as the base-class
    method alone leaves it, also when the method then raises.  With an
    active context manager, when the base-class call and what the method
    computes itself before [_call] return normally, the method returns and
    the list of the active context manager is the old list with exactly one
    handle appended; no other list changes.  When the base-class call or
    that computation raises, the method raises the same exception and no
    list changes: no handle is appended. *)
Theorem report_bookkeeping_and_one_handle self (c : Report) (h : Store B) rep :
  closed h ->
  reporters h !! self = Some rep ->
  (exists o h',
     report self c h = Some (o, h') /\
     bookkeeping_of h' self = Some (fst (super_report c (bookkeeping rep)))) /\
  (forall ctx,
     _reporting rep = Some ctx ->
     snd (super_report c (bookkeeping rep)) = Return tt ->
     before_call c = Return tt ->
     exists cm xs h',
       contexts h !! ctx = Some cm /\
       lists h !! _results cm = Some xs /\
       report self c h = Some (Return tt, h') /\
       bookkeeping_of h' self = Some (fst (super_report c (bookkeeping rep))) /\
       lists h' !! _results cm = Some (xs ++ [handle_of c (ampProtocol rep)]) /\
       (forall l, l <> _results cm -> lists h' !! l = lists h !! l) /\
       contexts h' = contexts h /\
       reporting_of h' self = Some (Some ctx)) /\
  (forall e,
     snd (super_report c (bookkeeping rep)) = Raise e \/
     (snd (super_report c (bookkeeping rep)) = Return tt /\
      before_call c = Raise e) ->
     exists h',
       report self c h = Some (Raise e, h') /\
       bookkeeping_of h' self = Some (fst (super_report c (bookkeeping rep))) /\
       lists h' = lists h).
Proof.
  intros Hclosed Hrep.
  pose proof (report_run self c h rep Hrep) as Hrun. cbv zeta in Hrun.
  split; [|split].
  - destruct (snd (super_report c (bookkeeping rep))) as [[]|e1].
    2:{ eexists _, _. split; [exact Hrun|].
        unfold bookkeeping_of. simpl. by rewrite lookup_insert_eq. }
    destruct (before_call c) as [[]|e2].
    2:{ eexists _, _. split; [exact Hrun|].
        unfold bookkeeping_of. simpl. by rewrite lookup_insert_eq. }
    destruct (_reporting rep) as [ctx|] eqn:Hctx.
    2:{ eexists _, _. split; [exact Hrun|].
        unfold bookkeeping_of. simpl. by rewrite lookup_insert_eq. }
    destruct (closed_reporting h self rep ctx Hclosed Hrep Hctx)
      as (cm & xs & Hcm & Hxs).
    rewrite Hcm, Hxs in Hrun.
    eexists _, _. split; [exact Hrun|].
    unfold bookkeeping_of. simpl. by rewrite lookup_insert_eq.
  - intros ctx Hctx Hsuper Hbefore.
    destruct (closed_reporting h self rep ctx Hclosed Hrep Hctx)
      as (cm & xs & Hcm & Hxs).
    rewrite Hsuper, Hbefore, Hctx, Hcm, Hxs in Hrun.
    eexists cm, xs, _. split; [done|]. split; [done|]. split; [exact Hrun|].
    unfold bookkeeping_of, reporting_of. simpl.
    rewrite !lookup_insert_eq. repeat split; try done.
    intros l Hl. by rewrite lookup_insert_ne.
  - intros e [Hsuper | [Hsuper Hbefore]].
    + rewrite Hsuper in Hrun. eexists. split; [exact Hrun|].
      unfold bookkeeping_of. simpl. by rewrite lookup_insert_eq.
    + rewrite Hsuper, Hbefore in Hrun. eexists. split; [exact Hrun|].
      unfold bookkeeping_of. simpl. by rewrite lookup_insert_eq.
Qed.

(** C3, amended: inside an active context, once the base-class call has
    returned, a method whose own computation before [_call] returns normally
    returns normally itself and records exactly one handle; an exception
    raised by [callRemote], or (for [addError]) by the normalization done
    inside [_addErrorFallible], is not raised to the caller but is the
    failure held by that handle.  An exception raised before [_call] (the
    class name in [addFailure], the message in [addExpectedFailure]) goes to
    the caller, and then no handle is recorded. *)
Theorem relay_errors_captured self (c : Report) (h : Store B) rep ctx cm xs :
  reporters h !! self = Some rep ->
  _reporting rep = Some ctx ->
  contexts h !! ctx = Some cm ->
  lists h !! _results cm = Some xs ->
  snd (super_report c (bookkeeping rep)) = Return tt ->
  (before_call c = Return tt ->
   exists h',
     report self c h = Some (Return tt, h') /\
     lists h' !! _results cm = Some (xs ++ [handle_of c (ampProtocol rep)]) /\
     (forall e, relay_of c = Raise e -> handle_of c (ampProtocol rep) = fail e) /\
     (forall command kwargs e,
        relay_of c = Return (command, kwargs) ->
        answer (ampProtocol rep) (sent (ampProtocol rep)) command kwargs = Raise e ->
        handle_of c (ampProtocol rep) = fail e)) /\
  (forall e,
     before_call c = Raise e ->
     exists h',
       report self c h = Some (Raise e, h') /\
       lists h' = lists h /\
       (forall r, sent_by h' r = sent_by h r)).
Proof.
  intros Hrep Hctx Hcm Hxs Hsuper.
  pose proof (report_run self c h rep Hrep) as Hrun. cbv zeta in Hrun.
  rewrite Hsuper, Hctx, Hcm, Hxs in Hrun.
  split.
  - intros Hbefore. rewrite Hbefore in Hrun.
    eexists. split; [exact Hrun|]. simpl. rewrite lookup_insert_eq.
    split; [done|]. unfold handle_of. split.
    + by intros e ->.
    + by intros command kwargs e -> ->.
  - intros e Hbefore. rewrite Hbefore in Hrun.
    eexists. split; [exact Hrun|]. split; [done|].
    intros r. unfold sent_by. simpl.
    destruct (decide (self = r)) as [->|Hne].
    + by rewrite lookup_insert_eq, Hrep.
    + by rewrite lookup_insert_ne.
Qed.

(** C8: inside an active context, [addExpectedFailure] and
    [addUnexpectedSuccess] send one call whose [todo] argument is the string
    "Test expected to fail" when [todo] is [None], and the [reason] of the
    [Todo] otherwise. *)
Theorem todo_reason_sent self (c : Report) test error todo (h : Store B)
    rep ctx cm xs :
  c = ExpectedFailure test error todo \/ c = UnexpectedSuccess test todo ->
  reporters h !! self = Some rep ->
  _reporting rep = Some ctx ->
  contexts h !! ctx = Some cm ->
  lists h !! _results cm = Some xs ->
  snd (super_report c (bookkeeping rep)) = Return tt ->
  before_call c = Return tt ->
  exists h' command kwargs,
    report self c h = Some (Return tt, h') /\
    sent_by h' self = Some (sent (ampProtocol rep) ++ [(command, kwargs)]) /\
    (command = AddExpectedFailure \/ command = AddUnexpectedSuccess) /\
    kwarg "todo" kwargs
    = Some (AmpString match todo with
                      | None => "Test expected to fail"
                      | Some t => reason t
                      end).
Proof.
  intros Hc Hrep Hctx Hcm Hxs Hsuper Hbefore.
  pose proof (report_run self c h rep Hrep) as Hrun. cbv zeta in Hrun.
  rewrite Hsuper, Hbefore, Hctx, Hcm, Hxs in Hrun.
  unfold sent_by.
  destruct Hc as [-> | ->].
  - simpl in Hbefore. unfold amp_after in Hrun. simpl in Hrun.
    destruct (error_getErrorMessage error) as [errorMessage|e]; [|done].
    eexists _, AddExpectedFailure, _. split; [exact Hrun|].
    simpl. rewrite lookup_insert_eq. simpl. split; [done|]. split; [by left|].
    by destruct todo.
  - unfold amp_after in Hrun. simpl in Hrun.
    eexists _, AddUnexpectedSuccess, _. split; [exact Hrun|].
    simpl. rewrite lookup_insert_eq. simpl. split; [done|]. split; [by right|].
    by destruct todo.
Qed.

(** C6: [__exit__] returns [False] whatever exception it is told about, and
    leaves [_reporting] of its reporter [None].  So a [with] statement on
    the context manager ends the way its body ended: an exception raised in
    the body is raised by the statement, a body that returned lets the
    statement return; in both cases [_reporting] is [None] afterwards and no
    list has changed since the body ended. *)
Theorem exit_clears_and_never_suppresses ctx (h : Store B) cm rep :
  contexts h !! ctx = Some cm ->
  reporters h !! _reporter cm = Some rep ->
  (forall et ev tb,
     exists h',
       __exit__ ctx et ev tb h = Some (Return false, h') /\
       reporting_of h' (_reporter cm) = Some None /\
       lists h' = lists h /\
       contexts h' = contexts h) /\
  (forall (body : loc -> Py B unit) h0 o,
     contexts h0 !! ctx = Some cm ->
     body (_results cm) h0 = Some (o, h) ->
     exists h',
       with_ ctx body h0 = Some (o, h') /\
       reporting_of h' (_reporter cm) = Some None /\
       lists h' = lists h).
Proof.
  intros Hcm Hrep.
  assert (forall et ev tb,
            __exit__ ctx et ev tb h
            = Some (Return false,
                    put_reporter h (_reporter cm)
                      (mkWorkerReporter (bookkeeping rep) (ampProtocol rep) None)))
    as Hexit by (intros; by apply __exit___run).
  assert (reporting_of
            (put_reporter h (_reporter cm)
               (mkWorkerReporter (bookkeeping rep) (ampProtocol rep) None))
            (_reporter cm) = Some None) as Hcleared.
  { unfold reporting_of. simpl. by rewrite lookup_insert_eq. }
  split.
  - intros et ev tb. eexists. split; [apply Hexit|]. done.
  - intros body h0 o Hcm0 Hbody. eexists.
    split; [exact (with_run _ _ _ _ _ _ _ Hcm0 Hbody Hcm Hrep)|done].
Qed.

(** C7: [__enter__] returns the list object of the context manager itself
    and changes nothing; [record] puts its argument at the end of that list
    and touches no other list; a [with] statement whose body records the
    handles [ds] one by one leaves that very list holding what it held
    followed by [ds], in order; and no sequence of operations of the module
    removes or reorders what the list holds: each only adds at the end. *)
Theorem results_append_only ctx (h : Store B) cm rep xs :
  contexts h !! ctx = Some cm ->
  reporters h !! _reporter cm = Some rep ->
  lists h !! _results cm = Some xs ->
  __enter__ ctx h = Some (Return (_results cm), h) /\
  (forall d,
     exists h',
       record ctx d h = Some (Return tt, h') /\
       lists h' !! _results cm = Some (xs ++ [d]) /\
       (forall l, l <> _results cm -> lists h' !! l = lists h !! l)) /\
  (forall ds,
     exists h',
       with_ ctx (fun results => record_all ctx ds) h = Some (Return tt, h') /\
       lists h' !! _results cm = Some (xs ++ ds) /\
       (forall l, l <> _results cm -> lists h' !! l = lists h !! l)) /\
  (forall ops h',
     run_ops ops h = Some h' ->
     exists ys, lists h' !! _results cm = Some (xs ++ ys)).
Proof.
  intros Hcm Hrep Hxs.
  split; [by apply __enter___run|].
  split.
  - intros d. pose proof (record_run ctx d h) as Hrec. rewrite Hcm, Hxs in Hrec.
    eexists. split; [exact Hrec|]. simpl. rewrite lookup_insert_eq.
    split; [done|]. intros l Hne. by rewrite lookup_insert_ne.
  - split; [|intros ops h' Hrun; by apply (run_ops_extends ops h h')].
    intros ds.
    destruct (record_all_run ctx ds h cm xs Hcm Hxs)
      as (h1 & Hrun & Hl & Hother & Hc & Hr).
    assert (contexts h1 !! ctx = Some cm) as Hcm1 by by rewrite Hc.
    assert (reporters h1 !! _reporter cm = Some rep) as Hrep1 by by rewrite Hr.
    eexists. split; [exact (with_run _ _ _ _ _ _ _ Hcm Hrun Hcm1 Hrep1)|].
    done.
Qed.

(** C9: whatever [_reporting] was, [gatherReportingResults] makes a new
    context manager with a new, empty list, returns it and leaves
    [_reporting] referring to it.  The context managers and lists already in
    the store, those of a context manager that was active included, are left
    as they are.  A method called next records its handle in the new list
    and in no other. *)
Theorem gather_opens_and_replaces self (h : Store B) rep :
  reporters h !! self = Some rep ->
  exists ctx l h',
    gatherReportingResults self h = Some (Return ctx, h') /\
    contexts h !! ctx = None /\
    lists h !! l = None /\
    contexts h' !! ctx = Some (mkReportingResults self l) /\
    lists h' !! l = Some [] /\
    reporting_of h' self = Some (Some ctx) /\
    (forall s, s <> ctx -> contexts h' !! s = contexts h !! s) /\
    (forall l', l' <> l -> lists h' !! l' = lists h !! l') /\
    (forall c,
       snd (super_report c (bookkeeping rep)) = Return tt ->
       before_call c = Return tt ->
       exists h'',
         report self c h' = Some (Return tt, h'') /\
         lists h'' !! l = Some [handle_of c (ampProtocol rep)] /\
         (forall l', l' <> l -> lists h'' !! l' = lists h !! l') /\
         reporting_of h'' self = Some (Some ctx)).
Proof.
  intros Hrep.
  eexists _, _, _. split; [exact (gatherReportingResults_run _ _ _ Hrep)|].
  split; [apply fresh_lookup_None|]. split; [apply fresh_lookup_None|].
  simpl. unfold reporting_of. simpl. rewrite !lookup_insert_eq.
  repeat (split; [done|]).
  split; [intros s Hne; by rewrite lookup_insert_ne|].
  split; [intros l' Hne; by rewrite lookup_insert_ne|].
  intros c Hsuper Hbefore.
  match goal with
  | |- context [report self c ?h'] =>
      pose proof (report_run self c h' _ (lookup_insert_eq _ _ _)) as Hrun
  end.
  cbv zeta in Hrun. simpl in Hrun.
  rewrite Hsuper, Hbefore, !lookup_insert_eq in Hrun. simpl in Hrun.
  eexists. split; [exact Hrun|]. simpl. rewrite !lookup_insert_eq.
  repeat (split; [done|]).
  split; [|done]. intros l' Hne. by rewrite !lookup_insert_ne.
Qed.

(** C10, amended: [__exit__] of a context manager leaves [_reporting] of
    its reporter [None] whether or not that context manager is the one
    [_reporting] refers to.  So after two calls of [gatherReportingResults]
    on a reporter, [__exit__] of the first context manager leaves the
    reporter without the second as well; every method called next raises to
    its caller and sends nothing, and the exception is the [ValueError] of
    [_call] when the base-class call and what the method computes before
    [_call] return normally. *)
Theorem stale_exit_detaches self (h : Store B) rep :
  reporters h !! self = Some rep ->
  (forall ctx cm et ev tb,
     contexts h !! ctx = Some cm ->
     _reporter cm = self ->
     exists h',
       __exit__ ctx et ev tb h = Some (Return false, h') /\
       reporting_of h' self = Some None) /\
  exists ctx1 ctx2 h1 h2 h3,
    gatherReportingResults self h = Some (Return ctx1, h1) /\
    gatherReportingResults self h1 = Some (Return ctx2, h2) /\
    ctx1 <> ctx2 /\
    reporting_of h2 self = Some (Some ctx2) /\
    (forall et ev tb, __exit__ ctx1 et ev tb h2 = Some (Return false, h3)) /\
    reporting_of h3 self = Some None /\
    (forall c,
       exists e h4,
         report self c h3 = Some (Raise e, h4) /\
         sent_by h4 self = sent_by h self /\
         (snd (super_report c (bookkeeping rep)) = Return tt ->
          before_call c = Return tt ->
          e = usage_error)).
Proof.
  intros Hrep. split.
  - intros ctx cm et ev tb Hcm Hself. subst self.
    eexists. split; [exact (__exit___run _ _ _ _ _ _ _ Hcm Hrep)|].
    unfold reporting_of. simpl. by rewrite lookup_insert_eq.
  - pose proof (gatherReportingResults_run self h rep Hrep) as Hg1.
    set (ctx1 := fresh (dom (contexts h))) in *.
    set (h1 := mkStore _ _ _) in Hg1.
    assert (reporters h1 !! self
            = Some (mkWorkerReporter (bookkeeping rep) (ampProtocol rep) (Some ctx1)))
      as Hrep1 by apply lookup_insert_eq.
    pose proof (gatherReportingResults_run self h1 _ Hrep1) as Hg2.
    set (ctx2 := fresh (dom (contexts h1))) in *.
    set (h2 := mkStore _ _ _) in Hg2.
    assert (contexts h1 !! ctx1 = Some (mkReportingResults self (fresh (dom (lists h)))))
      as Hcm1 by apply lookup_insert_eq.
    assert (ctx1 <> ctx2) as Hne.
    { intros Heq. pose proof (fresh_lookup_None (contexts h1)) as Hfresh.
      fold ctx2 in Hfresh. rewrite <- Heq in Hfresh. congruence. }
    assert (contexts h2 !! ctx1 = Some (mkReportingResults self (fresh (dom (lists h)))))
      as Hcm2.
    { unfold h2. simpl. by rewrite lookup_insert_ne. }
    assert (reporters h2 !! self
            = Some (mkWorkerReporter (bookkeeping rep) (ampProtocol rep) (Some ctx2)))
      as Hrep2 by apply lookup_insert_eq.
    exists ctx1, ctx2, h1, h2.
    eexists. split; [exact Hg1|]. split; [exact Hg2|]. split; [done|].
    split; [unfold reporting_of; by rewrite Hrep2|].
    split; [intros et ev tb; exact (__exit___run _ _ _ _ _ _ _ Hcm2 Hrep2)|].
    split; [unfold reporting_of; simpl; by rewrite lookup_insert_eq|].
    intros c.
    match goal with
    | |- context [report self c ?h3] =>
        pose proof (report_run self c h3 _ (put_reporter_lookup _ _ _)) as Hrun
    end.
    cbv zeta in Hrun. simpl in Hrun.
    assert (forall b,
              sent_by
                (put_reporter
                   (put_reporter h2 self
                      (mkWorkerReporter (bookkeeping rep) (ampProtocol rep) None))
                   self (mkWorkerReporter b (ampProtocol rep) None)) self
              = sent_by h self) as Hsent.
    { intros b. unfold sent_by. simpl. by rewrite lookup_insert_eq, Hrep. }
    destruct (snd (super_report c (bookkeeping rep))) as [[]|e1].
    + destruct (before_call c) as [[]|e2].
      * eexists _, _. split; [exact Hrun|]. split; [apply Hsent|done].
      * eexists _, _. split; [exact Hrun|]. split; [apply Hsent|done].
    + eexists _, _. split; [exact Hrun|]. split; [apply Hsent|done].
Qed.

End Reporting.

(** ** The sample stores and the scenarios *)

Lemma store_with_reporter_reached amp :
  run_ops [OpNewReporter no_outcomes amp] empty_store = Some (store_with_reporter amp).
Proof. reflexivity. Qed.

Lemma store_reporting_reached amp :
  run_ops [OpNewReporter no_outcomes amp; OpGather 0] empty_store
  = Some (store_reporting amp).
Proof. reflexivity. Qed.

Lemma store_reporting_closed amp : closed (store_reporting amp).
Proof.
  apply (closed_run_ops _ _ _ closed_empty (store_reporting_reached amp)).
Qed.

(** A success reported in an open context: one handle, one success counted. *)
Example success_in_context :
  observe (report 0 (Success t1) (store_reporting quiet_amp))
  = Some (Return tt, Some [unfired 0], Some (Some 0),
          Some [(AddSuccess, [("testName", AmpString "t1")])], Some 1).
Proof. vm_compute. reflexivity. Qed.

(** An error reported from a [sys.exc_info()] triple. *)
Example error_in_context :
  observe (report 0 (Error t2 (Tuple3 ValueError_class boom sample_tb))
             (store_reporting quiet_amp))
  = Some (Return tt, Some [unfired 0], Some (Some 0),
          Some [(AddError,
                 [("testName", AmpString "t2");
                  ("error", AmpString "boom");
                  ("errorClass", AmpString "builtins.ValueError");
                  ("frames",
                   AmpListOfString
                     ["test_it"; "test_sample.py"; "12"; "helper"; "util.py"; "7"])])],
          Some 0).
Proof. vm_compute. reflexivity. Qed.

(** A skip: the reason goes out as its string form. *)
Example skip_in_context :
  observe (report 0 (Skip t1 (StrObj "slow")) (store_reporting quiet_amp))
  = Some (Return tt, Some [unfired 0], Some (Some 0),
          Some [(AddSkip, [("testName", AmpString "t1"); ("reason", AmpString "slow")])],
          Some 0).
Proof. vm_compute. reflexivity. Qed.

(** No context ever opened: the [ValueError], nothing sent. *)
Example success_outside_context :
  observe (report 0 (Success t1) (store_with_reporter quiet_amp))
  = Some (Raise usage_error, None, Some None, Some [], Some 1).
Proof. vm_compute. reflexivity. Qed.

(** Two outcomes reported in a [with] block: after it the list holds both
    handles in order and the reporter has no active context manager. *)
Example two_reports_then_exit :
  observe (two_reports_in_a_with_block (store_with_reporter quiet_amp))
  = Some (Return tt, Some [unfired 0; unfired 1], Some None,
          Some [(AddSuccess, [("testName", AmpString "t1")]);
                (AddSkip, [("testName", AmpString "t2"); ("reason", AmpString "slow")])],
          Some 1).
Proof. vm_compute. reflexivity. Qed.

(** A transport that raises in [callRemote]: the method returns, the handle
    holds the exception. *)
Example success_on_broken_transport :
  observe (report 0 (Success t1) (store_reporting broken_amp))
  = Some (Return tt,
          Some [fail (ExcObj (builtin "ConnectionError") "connection lost")],
          Some (Some 0),
          Some [(AddSuccess, [("testName", AmpString "t1")])], Some 1).
Proof. vm_compute. reflexivity. Qed.

(** [addFailure] computes the class name before [_call]: on a triple given
    as (instance, type, traceback) the [AttributeError] goes to the caller. *)
Example failure_class_name_raises_inline :
  observe (report 0 (Failed t1 (Tuple3 boom ValueError_class sample_tb))
             (store_reporting quiet_amp))
  = Some (Raise (no_attribute "ValueError" "__name__"),
          Some [], Some (Some 0), Some [], Some 0).
Proof. vm_compute. reflexivity. Qed.

(** [addError] computes it inside the function given to [_call]: the same
    triple gives a failed handle. *)
Example error_class_name_captured :
  observe (report 0 (Error t1 (Tuple3 boom ValueError_class sample_tb))
             (store_reporting quiet_amp))
  = Some (Return tt, Some [fail (no_attribute "ValueError" "__name__")],
          Some (Some 0), Some [], Some 0).
Proof. vm_compute. reflexivity. Qed.

(** C3, as stated, fails: with an active context, [addExpectedFailure] on an
    error given as a [sys.exc_info()] triple raises [AttributeError] to its
    caller, because it calls [error.getErrorMessage()] before [_call]; the
    list of the context manager stays empty and nothing is sent. *)
Lemma expected_failure_raises_inline :
  reporting_of (store_reporting quiet_amp) 0 = Some (Some 0) /\
  contexts (store_reporting quiet_amp) !! 0 = Some sample_context /\
  lists (store_reporting quiet_amp) !! 0 = Some [] /\
  exists h',
    report 0 (ExpectedFailure t1 (Tuple3 ValueError_class boom sample_tb) None)
      (store_reporting quiet_amp)
    = Some (Raise (no_attribute "tuple" "getErrorMessage"), h') /\
    lists h' !! 0 = Some [] /\
    sent_by h' 0 = Some [].
Proof.
  repeat (split; [reflexivity|]).
  eexists. split; [vm_compute; reflexivity|]. split; reflexivity.
Qed.

(** C1, as stated, fails: with no active context manager,
    [addExpectedFailure] on an error given as a [sys.exc_info()] triple
    raises [AttributeError], not the [ValueError] of [_call]: the call of
    [error.getErrorMessage()] comes before [_call]. *)
Lemma expected_failure_outside_context :
  reporting_of (store_with_reporter quiet_amp) 0 = Some None /\
  (exists h',
     report 0 expected_failure_from_triple (store_with_reporter quiet_amp)
     = Some (Raise (no_attribute "tuple" "getErrorMessage"), h')) /\
  no_attribute "tuple" "getErrorMessage" <> usage_error.
Proof.
  split; [reflexivity|]. split; [|discriminate].
  eexists. vm_compute. reflexivity.
Qed.

(** C2, as stated, fails: with an active context manager,
    [addExpectedFailure] on an error given as a [sys.exc_info()] triple
    updates the bookkeeping (one expected failure) but appends no handle:
    the list of the context manager is as empty as before. *)
Lemma expected_failure_appends_no_handle :
  reporting_of (store_reporting quiet_amp) 0 = Some (Some 0) /\
  contexts (store_reporting quiet_amp) !! 0 = Some sample_context /\
  lists (store_reporting quiet_amp) !! 0 = Some [] /\
  exists o h',
    report 0 expected_failure_from_triple (store_reporting quiet_amp) = Some (o, h') /\
    (length <$> lists h' !! 0) = Some 0 /\
    lists h' = lists (store_reporting quiet_amp) /\
    (length ∘ expectedFailures <$> bookkeeping_of h' 0) = Some 1.
Proof.
  repeat (split; [reflexivity|]).
  eexists _, _. split; [vm_compute; reflexivity|].
  repeat split; reflexivity.
Qed.

(** C10, as stated, fails in its last clause: after the first of two
    context managers is exited the reporter has none, yet
    [addExpectedFailure] on an error given as a [sys.exc_info()] triple
    raises [AttributeError], not the [ValueError] of [_call]. *)
Lemma expected_failure_after_stale_exit :
  observe (report_after_stale_exit (store_with_reporter quiet_amp))
  = Some (Raise (no_attribute "tuple" "getErrorMessage"),
          Some [], Some None, Some [], Some 0) /\
  no_attribute "tuple" "getErrorMessage" <> usage_error.
Proof. split; [vm_compute; reflexivity|discriminate]. Qed.

(** ** The theorems at the sample stores *)

Lemma report_outside_context_witness :
  reporters (store_with_reporter quiet_amp) !! 0
    = Some (mkWorkerReporter no_outcomes quiet_amp None) /\
  exists e h',
    report 0 (Success t1) (store_with_reporter quiet_amp) = Some (Raise e, h') /\
    (forall r, sent_by h' r = sent_by (store_with_reporter quiet_amp) r) /\
    lists h' = lists (store_with_reporter quiet_amp) /\
    e = usage_error.
Proof.
  split; [reflexivity|].
  destruct (report_outside_context (TR := Tally_TestResult) 0 (Success t1) (store_with_reporter quiet_amp)
              (mkWorkerReporter no_outcomes quiet_amp None) eq_refl eq_refl)
    as (e & h' & Hrun & Hsent & Hlists & _ & _ & Husage & _).
  exists e, h'. repeat split; try assumption.
  apply Husage; reflexivity.
Defined.

Lemma report_bookkeeping_and_one_handle_witness :
  closed (store_reporting quiet_amp) /\
  reporters (store_reporting quiet_amp) !! 0 = Some (sample_reporter quiet_amp) /\
  exists h',
    report 0 (Success t1) (store_reporting quiet_amp) = Some (Return tt, h') /\
    bookkeeping_of h' 0 = Some (mkTally 1 [] [] [] [] []) /\
    lists h' !! 0 = Some [unfired 0].
Proof.
  split; [apply store_reporting_closed|]. split; [reflexivity|].
  destruct (report_bookkeeping_and_one_handle (TR := Tally_TestResult) 0 (Success t1)
              (store_reporting quiet_amp) (sample_reporter quiet_amp)
              (store_reporting_closed quiet_amp) eq_refl)
    as (_ & Hinside & _).
  destruct (Hinside 0 eq_refl eq_refl eq_refl)
    as (cm & xs & h' & Hcm & Hxs & Hrun & Hbook & Hl & _).
  injection Hcm as <-. injection Hxs as <-.
  exists h'. repeat split; assumption.
Defined.

Lemma relay_errors_captured_witness :
  reporters (store_reporting quiet_amp) !! 0 = Some (sample_reporter quiet_amp) /\
  before_call (Error t1 (Tuple3 boom ValueError_class sample_tb)) = Return tt /\
  exists h',
    report 0 (Error t1 (Tuple3 boom ValueError_class sample_tb))
      (store_reporting quiet_amp) = Some (Return tt, h') /\
    lists h' !! 0 = Some [fail (no_attribute "ValueError" "__name__")].
Proof.
  split; [reflexivity|]. split; [reflexivity|].
  destruct (relay_errors_captured (TR := Tally_TestResult) 0 (Error t1 (Tuple3 boom ValueError_class sample_tb))
              (store_reporting quiet_amp) (sample_reporter quiet_amp) 0
              sample_context [] eq_refl eq_refl eq_refl eq_refl eq_refl)
    as [Hcaptured _].
  destruct (Hcaptured eq_refl) as (h' & Hrun & Hl & _).
  exists h'. split; assumption.
Defined.

Lemma todo_reason_sent_witness :
  exists h' command kwargs,
    report 0 (UnexpectedSuccess t1 None) (store_reporting quiet_amp)
      = Some (Return tt, h') /\
    sent_by h' 0 = Some ([] ++ [(command, kwargs)]) /\
    (command = AddExpectedFailure \/ command = AddUnexpectedSuccess) /\
    kwarg "todo" kwargs = Some (AmpString "Test expected to fail").
Proof.
  apply (todo_reason_sent (TR := Tally_TestResult) 0 (UnexpectedSuccess t1 None) t1
           (Wrapped (Failure_new boom ValueError_class sample_tb)) None
           (store_reporting quiet_amp) (sample_reporter quiet_amp) 0
           sample_context []); try reflexivity.
  right. reflexivity.
Defined.

Lemma exit_clears_and_never_suppresses_witness :
  contexts (store_reporting quiet_amp) !! 0 = Some sample_context /\
  reporters (store_reporting quiet_amp) !! 0 = Some (sample_reporter quiet_amp) /\
  exists h',
    __exit__ 0 (Some ValueError_class) (Some boom) (Some sample_tb)
      (store_reporting quiet_amp) = Some (Return false, h') /\
    reporting_of h' 0 = Some None.
Proof.
  split; [reflexivity|]. split; [reflexivity|].
  destruct (exit_clears_and_never_suppresses 0 (store_reporting quiet_amp)
              sample_context (sample_reporter quiet_amp) eq_refl eq_refl)
    as [Hexit _].
  destruct (Hexit (Some ValueError_class) (Some boom) (Some sample_tb))
    as (h' & Hrun & Hnone & _).
  exists h'. split; assumption.
Defined.

Lemma results_append_only_witness :
  lists (store_reporting quiet_amp) !! 0 = Some [] /\
  exists h',
    with_ 0 (fun results => record_all 0 [unfired 0; unfired 1; unfired 2])
      (store_reporting quiet_amp) = Some (Return tt, h') /\
    lists h' !! 0 = Some [unfired 0; unfired 1; unfired 2].
Proof.
  split; [reflexivity|].
  destruct (results_append_only (TR := Tally_TestResult) 0 (store_reporting quiet_amp) sample_context
              (sample_reporter quiet_amp) [] eq_refl eq_refl eq_refl)
    as (_ & _ & Hwith & _).
  destruct (Hwith [unfired 0; unfired 1; unfired 2]) as (h' & Hrun & Hl & _).
  exists h'. split; assumption.
Defined.

Lemma gather_opens_and_replaces_witness :
  reporting_of (store_reporting quiet_amp) 0 = Some (Some 0) /\
  exists ctx l h',
    gatherReportingResults 0 (store_reporting quiet_amp) = Some (Return ctx, h') /\
    contexts (store_reporting quiet_amp) !! ctx = None /\
    lists h' !! l = Some [] /\
    reporting_of h' 0 = Some (Some ctx).
Proof.
  split; [reflexivity|].
  destruct (gather_opens_and_replaces (TR := Tally_TestResult) 0 (store_reporting quiet_amp)
              (sample_reporter quiet_amp) eq_refl)
    as (ctx & l & h' & Hrun & Hnew & _ & _ & Hl & Hnow & _).
  exists ctx, l, h'. repeat split; assumption.
Defined.

Lemma stale_exit_detaches_witness :
  reporters (store_with_reporter quiet_amp) !! 0
    = Some (mkWorkerReporter no_outcomes quiet_amp None) /\
  exists ctx1 ctx2 h1 h2 h3,
    gatherReportingResults 0 (store_with_reporter quiet_amp) = Some (Return ctx1, h1) /\
    gatherReportingResults 0 h1 = Some (Return ctx2, h2) /\
    ctx1 <> ctx2 /\
    reporting_of h2 0 = Some (Some ctx2) /\
    __exit__ ctx1 None None None h2 = Some (Return false, h3) /\
    reporting_of h3 0 = Some None /\
    exists h4, report 0 (Success t1) h3 = Some (Raise usage_error, h4).
Proof.
  split; [reflexivity|].
  destruct (stale_exit_detaches (TR := Tally_TestResult) 0 (store_with_reporter quiet_amp)
              (mkWorkerReporter no_outcomes quiet_amp None) eq_refl)
    as (_ & ctx1 & ctx2 & h1 & h2 & h3 & Hg1 & Hg2 & Hne & Hnow & Hexit & Hnone
        & Hnext).
  exists ctx1, ctx2, h1, h2, h3.
  repeat (split; [first [assumption | apply Hexit]|]).
  destruct (Hnext (Success t1)) as (e & h4 & Hrun & _ & Husage).
  exists h4. rewrite <- (Husage eq_refl eq_refl). exact Hrun.
Defined.

(** ** Several reports in one context *)

Section ReportRuns.

Context {B : Type} {TR : TestResult B}.

Lemma handles_all_length cs amp : length (handles_all cs amp) = length cs.
Proof. revert amp. induction cs as [|c cs IH]; intros amp; simpl; [done|by rewrite IH]. Qed.

Lemma sent_amp_after c amp :
  sent (amp_after c amp)
  = sent amp ++ match relay_of c with Return r => [r] | Raise _ => [] end.
Proof.
  unfold amp_after. destruct (relay_of c) as [[command kwargs]|e]; simpl; [done|].
  by rewrite app_nil_r.
Qed.

Lemma sent_amp_after_all cs amp :
  sent (amp_after_all cs amp) = sent amp ++ relays cs.
Proof.
  revert amp. induction cs as [|c cs IH]; intros amp; simpl.
  - by rewrite app_nil_r.
  - rewrite IH, sent_amp_after.
    destruct (relay_of c) as [r|e]; simpl; [by rewrite <- app_assoc|].
    by rewrite app_nil_r.
Qed.

(** What a run of reports does to the store, when no call raises to its
    caller. *)
Lemma report_all_run self cs (h : Store B) rep ctx cm xs :
  reporters h !! self = Some rep ->
  _reporting rep = Some ctx ->
  contexts h !! ctx = Some cm ->
  lists h !! _results cm = Some xs ->
  (forall c b, snd (super_report c b) = Return tt) ->
  Forall (fun c => before_call c = Return tt) cs ->
  exists h',
    report_all self cs h = Some (Return tt, h') /\
    reporters h' !! self
    = Some (mkWorkerReporter (super_all cs (bookkeeping rep))
              (amp_after_all cs (ampProtocol rep)) (Some ctx)) /\
    (forall r, r <> self -> reporters h' !! r = reporters h !! r) /\
    contexts h' = contexts h /\
    lists h' !! _results cm = Some (xs ++ handles_all cs (ampProtocol rep)) /\
    (forall l, l <> _results cm -> lists h' !! l = lists h !! l).
Proof.
  intros Hrep Hctx Hcm Hxs Hsuper Hbefore. revert h rep xs Hrep Hctx Hcm Hxs.
  induction Hbefore as [|c cs Hc _ IH]; intros h rep xs Hrep Hctx Hcm Hxs.
  - exists h. simpl. rewrite app_nil_r. destruct rep as [b amp r].
    simpl in Hctx. subst r. done.
  - pose proof (report_run self c h rep Hrep) as Hrun. cbv zeta in Hrun.
    rewrite Hsuper, Hc, Hctx, Hcm, Hxs in Hrun.
    match type of Hrun with
    | _ = Some (_, ?h1) =>
        destruct (IH h1
                    (mkWorkerReporter (fst (super_report c (bookkeeping rep)))
                       (amp_after c (ampProtocol rep)) (Some ctx))
                    (xs ++ [handle_of c (ampProtocol rep)]))
          as (h' & Hall & Hself & Hothers & Hcontexts & Hlist & Hlists);
          [| reflexivity | | |]
    end.
    + simpl. apply lookup_insert_eq.
    + exact Hcm.
    + simpl. apply lookup_insert_eq.
    + exists h'. simpl. rewrite (bind_Return _ _ _ _ _ Hrun).
      split; [exact Hall|]. split; [exact Hself|].
      split; [intros r Hne; rewrite (Hothers r Hne); simpl;
              by rewrite lookup_insert_ne|].
      split; [by rewrite Hcontexts|].
      split; [by rewrite Hlist, <- app_assoc|].
      intros l Hne. rewrite (Hlists l Hne). simpl. by rewrite lookup_insert_ne.
Qed.

Lemma relay_of_command c command kwargs :
  relay_of c = Return (command, kwargs) ->
  command = command_of c /\
  kwarg "testName" kwargs = Some (AmpString (test_id (test_of c))).
Proof.
  destruct c as [test|test error|test failure|test reason|test error todo|test todo];
    simpl.
  - by intros [= <- <-].
  - destruct (normalize error) as [[[errorStr errorClass] frames]|e]; [|done].
    by intros [= <- <-].
  - destruct (normalize failure) as [[[failStr failClass] frames]|e]; [|done].
    by intros [= <- <-].
  - by intros [= <- <-].
  - destruct (error_getErrorMessage error) as [errorMessage|e]; [|done].
    by intros [= <- <-].
  - by intros [= <- <-].
Qed.

(** X1: with an active context, a base class that never raises and
    methods whose own computation before [_call] returns, a run of [n]
    reports returns normally; the list of the context manager is extended by
    exactly [n] handles, in the order of the reports; the calls sent through
    the protocol are extended by the calls of the reports, in that order;
    the bookkeeping is that of the base-class methods applied in that order;
    and the context stays active. *)
Theorem reports_in_order self cs (h : Store B) rep ctx cm xs :
  reporters h !! self = Some rep ->
  _reporting rep = Some ctx ->
  contexts h !! ctx = Some cm ->
  lists h !! _results cm = Some xs ->
  (forall c b, snd (super_report c b) = Return tt) ->
  Forall (fun c => before_call c = Return tt) cs ->
  exists h' ds,
    report_all self cs h = Some (Return tt, h') /\
    lists h' !! _results cm = Some (xs ++ ds) /\
    length ds = length cs /\
    ds = handles_all cs (ampProtocol rep) /\
    sent_by h' self = Some (sent (ampProtocol rep) ++ relays cs) /\
    bookkeeping_of h' self = Some (super_all cs (bookkeeping rep)) /\
    reporting_of h' self = Some (Some ctx).
Proof.
  intros Hrep Hctx Hcm Hxs Hsuper Hbefore.
  destruct (report_all_run self cs h rep ctx cm xs Hrep Hctx Hcm Hxs Hsuper Hbefore)
    as (h' & Hall & Hself & _ & _ & Hlist & _).
  exists h', (handles_all cs (ampProtocol rep)).
  unfold sent_by, bookkeeping_of, reporting_of. rewrite Hself. simpl.
  rewrite sent_amp_after_all, handles_all_length. done.
Qed.

(** X2: a whole reporting block.  [gatherReportingResults], then a [with]
    statement on what it returned whose body makes [n] reports (base class
    never raising, own computations returning): the statement returns; the
    list [__enter__] handed out holds exactly the [n] handles of the
    reports in order; the reporter is left without active context manager;
    and the calls were sent in the order of the reports. *)
Theorem reporting_block self cs (h : Store B) rep :
  reporters h !! self = Some rep ->
  (forall c b, snd (super_report c b) = Return tt) ->
  Forall (fun c => before_call c = Return tt) cs ->
  exists ctx results h1 h',
    gatherReportingResults self h = Some (Return ctx, h1) /\
    __enter__ ctx h1 = Some (Return results, h1) /\
    with_ ctx (fun results => report_all self cs) h1 = Some (Return tt, h') /\
    lists h' !! results = Some (handles_all cs (ampProtocol rep)) /\
    length (handles_all cs (ampProtocol rep)) = length cs /\
    reporting_of h' self = Some None /\
    sent_by h' self = Some (sent (ampProtocol rep) ++ relays cs).
Proof.
  intros Hrep Hsuper Hbefore.
  pose proof (gatherReportingResults_run self h rep Hrep) as Hg.
  set (ctx := fresh (dom (contexts h))) in *.
  set (results := fresh (dom (lists h))) in *.
  match type of Hg with _ = Some (_, ?s) => set (h1 := s) in * end.
  assert (contexts h1 !! ctx = Some (mkReportingResults self results)) as Hcm
    by apply lookup_insert_eq.
  destruct (report_all_run self cs h1
              (mkWorkerReporter (bookkeeping rep) (ampProtocol rep) (Some ctx)) ctx
              (mkReportingResults self results) [])
    as (h2 & Hall & Hself & _ & Hcontexts & Hlist & _); try done.
  { apply lookup_insert_eq. }
  { simpl. apply lookup_insert_eq. }
  simpl in Hself, Hlist.
  assert (contexts h2 !! ctx = Some (mkReportingResults self results)) as Hcm2
    by by rewrite Hcontexts.
  exists ctx, results, h1. eexists.
  split; [exact Hg|]. split; [exact (__enter___run _ _ _ Hcm)|].
  split; [exact (with_run _ _ _ _ _ _ _ Hcm Hall Hcm2 Hself)|].
  simpl. unfold reporting_of, sent_by. simpl. rewrite !lookup_insert_eq. simpl.
  rewrite sent_amp_after_all, handles_all_length. done.
Qed.

(** X3: a reporting method works on its own reporter and on the list of
    that reporter's active context manager only: however the call ends,
    every other reporter, every context manager, the reporter's own
    [_reporting], and every list that is not the list of the active context
    manager are as before. *)
Theorem report_frame self (c : Report) (h h' : Store B) o rep :
  report self c h = Some (o, h') ->
  reporters h !! self = Some rep ->
  (forall r, r <> self -> reporters h' !! r = reporters h !! r) /\
  contexts h' = contexts h /\
  reporting_of h' self = Some (_reporting rep) /\
  (forall l,
     (forall ctx cm,
        _reporting rep = Some ctx -> contexts h !! ctx = Some cm ->
        l <> _results cm) ->
     lists h' !! l = lists h !! l).
Proof.
  intros Hrun Hrep.
  rewrite (report_run _ _ _ _ Hrep) in Hrun. cbv zeta in Hrun.
  assert (forall b amp,
            (forall r, r <> self ->
               reporters (put_reporter h self
                            (mkWorkerReporter b amp (_reporting rep))) !! r
               = reporters h !! r) /\
            reporting_of (put_reporter h self
                            (mkWorkerReporter b amp (_reporting rep))) self
            = Some (_reporting rep)) as Hput.
  { intros b amp. unfold reporting_of. simpl. rewrite lookup_insert_eq.
    split; [|done]. intros r Hne. by rewrite lookup_insert_ne. }
  destruct (snd (super_report c (bookkeeping rep)));
    [|injection Hrun as <- <-; destruct (Hput (fst (super_report c (bookkeeping rep)))
                                           (ampProtocol rep)); done].
  destruct (before_call c);
    [|injection Hrun as <- <-; destruct (Hput (fst (super_report c (bookkeeping rep)))
                                           (ampProtocol rep)); done].
  destruct (_reporting rep) as [ctx|] eqn:Hctx;
    [|injection Hrun as <- <-; destruct (Hput (fst (super_report c (bookkeeping rep)))
                                           (ampProtocol rep)); done].
  destruct (contexts h !! ctx) as [cm|] eqn:Hcm; [|done].
  destruct (lists h !! _results cm) as [xs|]; [|done].
  injection Hrun as <- <-.
  destruct (Hput (fst (super_report c (bookkeeping rep)))
              (amp_after c (ampProtocol rep))) as [Hothers Hnow].
  split; [exact Hothers|]. split; [done|]. split; [exact Hnow|].
  intros l Hl. simpl. rewrite lookup_insert_ne; [done|].
  intros Heq. by apply (Hl ctx cm).
Qed.

(** X4: a reporting method sends at most one call through the protocol,
    however it ends; a call it sends has the command of the method and the
    id of the test as its [testName].  A method that raises to its caller
    has sent nothing.  A method that returns normally has sent exactly one
    call; the one exception is [addError], which has sent exactly one call
    when the class name of the error can be computed and none when it
    cannot. *)
Theorem report_sends_at_most_one_call self (c : Report) (h h' : Store B) o rep :
  report self c h = Some (o, h') ->
  reporters h !! self = Some rep ->
  exists calls,
    sent_by h' self = Some (sent (ampProtocol rep) ++ calls) /\
    length calls <= 1 /\
    (forall command kwargs,
       (command, kwargs) ∈ calls ->
       command = command_of c /\
       kwarg "testName" kwargs = Some (AmpString (test_id (test_of c)))) /\
    (forall e, o = Raise e -> calls = []) /\
    (o = Return tt -> command_of c <> AddError -> length calls = 1) /\
    (o = Return tt ->
     forall test error,
       c = Error test error ->
       match qual (type (_getFailure error)) with
       | Return _ => length calls = 1
       | Raise _ => calls = []
       end).
Proof.
  intros Hrun Hrep.
  rewrite (report_run _ _ _ _ Hrep) in Hrun. cbv zeta in Hrun.
  assert (forall b r,
            sent_by (put_reporter h self (mkWorkerReporter b (ampProtocol rep) r))
              self = Some (sent (ampProtocol rep) ++ [])) as Hquiet.
  { intros b r. unfold sent_by. simpl. by rewrite lookup_insert_eq, app_nil_r. }
  assert (forall command kwargs,
            (command, kwargs) ∈ @nil (Command * Payload) ->
            command = command_of c /\
            kwarg "testName" kwargs = Some (AmpString (test_id (test_of c))))
    as Hnil.
  { intros command kwargs Hin. by apply elem_of_nil in Hin. }
  destruct (snd (super_report c (bookkeeping rep))) as [[]|e1].
  2:{ injection Hrun as <- <-. exists []. split; [apply Hquiet|].
      split; [simpl; lia|]. split; [exact Hnil|]. repeat split; done. }
  destruct (before_call c) as [[]|e2] eqn:Hbefore.
  2:{ injection Hrun as <- <-. exists []. split; [apply Hquiet|].
      split; [simpl; lia|]. split; [exact Hnil|]. repeat split; done. }
  destruct (_reporting rep) as [ctx|].
  2:{ injection Hrun as <- <-. exists []. split; [apply Hquiet|].
      split; [simpl; lia|]. split; [exact Hnil|]. repeat split; done. }
  destruct (contexts h !! ctx) as [cm|]; [|done].
  destruct (lists h !! _results cm) as [xs|]; [|done].
  injection Hrun as <- <-.
  exists (match relay_of c with Return r => [r] | Raise _ => [] end).
  split.
  { unfold sent_by. simpl. rewrite lookup_insert_eq. simpl.
    by rewrite sent_amp_after. }
  split; [destruct (relay_of c); simpl; lia|].
  split.
  { destruct (relay_of c) as [[command0 kwargs0]|e] eqn:Hrelay; [|done].
    intros command kwargs Hin. apply list_elem_of_singleton in Hin.
    injection Hin as -> ->. by apply relay_of_command. }
  split; [done|]. split.
  - intros _ Hcommand.
    destruct c as [test|test error|test failure|test reason|test error todo|test todo];
      simpl in Hbefore, Hcommand |- *; try done.
    + unfold normalize.
      by destruct (qual (type (_getFailure failure))).
    + by destruct (error_getErrorMessage error).
  - intros _ test error ->. simpl. unfold normalize.
    by destruct (qual (type (_getFailure error))).
Qed.

(** X5: [_addErrorFallible] called on its own needs no active context and
    records nothing: when the class name can be computed it sends exactly
    one [AddError] call with the test name, the message, the class name and
    the flattened frames, and ends as [callRemote] ends (an exception of
    [callRemote] is raised to the caller, not wrapped); when it cannot, the
    exception is raised and nothing is sent.  The bookkeeping, [_reporting],
    the context managers and the lists are left as they are. *)
Theorem addErrorFallible_on_its_own self testName errorObj (h : Store B) rep :
  reporters h !! self = Some rep ->
  exists o h',
    _addErrorFallible self testName errorObj h = Some (o, h') /\
    lists h' = lists h /\
    contexts h' = contexts h /\
    reporting_of h' self = Some (_reporting rep) /\
    bookkeeping_of h' self = Some (bookkeeping rep) /\
    match normalize errorObj with
    | Return (errorStr, errorClass, frames) =>
        let kwargs :=
          [("testName", AmpString testName);
           ("error", AmpString errorStr);
           ("errorClass", AmpString errorClass);
           ("frames", AmpListOfString frames)] in
        o = answer (ampProtocol rep) (sent (ampProtocol rep)) AddError kwargs /\
        sent_by h' self = Some (sent (ampProtocol rep) ++ [(AddError, kwargs)])
    | Raise e =>
        o = Raise e /\ h' = h
    end.
Proof.
  intros Hrep.
  rewrite (_addErrorFallible_run _ _ _ _ _ Hrep).
  unfold reporting_of, bookkeeping_of, sent_by.
  destruct (normalize errorObj) as [[[errorStr errorClass] frames]|e].
  - rewrite (callRemote_run _ _ _ _ _ Hrep).
    eexists _, _. split; [done|]. simpl. by rewrite lookup_insert_eq.
  - exists (Raise e), h. by rewrite Hrep.
Qed.

(** X6: for an error whose wrapped type is a class (a [sys.exc_info()]
    triple or a [Failure]), [addError] and [addFailure] in an active context
    send the same three values, the message of the value, the
    module-qualified name of the class and three strings per frame, under
    different commands and argument names: [AddError] with [error] and
    [errorClass], [AddFailure] with [fail] and [failClass]. *)
Theorem error_and_failure_payloads self test error cls (h : Store B)
    rep ctx cm xs :
  reporters h !! self = Some rep ->
  _reporting rep = Some ctx ->
  contexts h !! ctx = Some cm ->
  lists h !! _results cm = Some xs ->
  type (_getFailure error) = ClassObj cls ->
  snd (super_addError test error (bookkeeping rep)) = Return tt ->
  snd (super_addFailure test error (bookkeeping rep)) = Return tt ->
  let message := str (value (_getFailure error)) in
  let className := cls_module cls +:+ "." +:+ cls_name cls in
  let entries := flat_map frame_entries (frames (_getFailure error)) in
  exists h1 h2,
    addError self test error h = Some (Return tt, h1) /\
    sent_by h1 self
    = Some (sent (ampProtocol rep)
            ++ [(AddError,
                 [("testName", AmpString (test_id test));
                  ("error", AmpString message);
                  ("errorClass", AmpString className);
                  ("frames", AmpListOfString entries)])]) /\
    addFailure self test error h = Some (Return tt, h2) /\
    sent_by h2 self
    = Some (sent (ampProtocol rep)
            ++ [(AddFailure,
                 [("testName", AmpString (test_id test));
                  ("fail", AmpString message);
                  ("failClass", AmpString className);
                  ("frames", AmpListOfString entries)])]).
Proof.
  intros Hrep Hctx Hcm Hxs Hcls Herr Hfail. cbv zeta.
  pose proof (report_run self (Error test error) h rep Hrep) as Hrun1.
  pose proof (report_run self (Failed test error) h rep Hrep) as Hrun2.
  cbv zeta in Hrun1, Hrun2. simpl in Hrun1, Hrun2.
  rewrite Herr, Hctx, Hcm, Hxs in Hrun1.
  rewrite Hfail, Hcls, Hctx, Hcm, Hxs in Hrun2. simpl in Hrun2.
  assert (normalize error
          = Return (str (value (_getFailure error)),
                    cls_module cls +:+ "." +:+ cls_name cls,
                    flat_map frame_entries (frames (_getFailure error))))
    as Hnormal.
  { unfold normalize. rewrite Hcls. simpl. by rewrite _getFrames_flat_map. }
  eexists _, _. split; [exact Hrun1|]. split; [|split; [exact Hrun2|]].
  - unfold sent_by, amp_after. cbn [relay_of]. rewrite Hnormal. simpl.
    by rewrite lookup_insert_eq.
  - unfold sent_by, amp_after. cbn [relay_of]. rewrite Hnormal. simpl.
    by rewrite lookup_insert_eq.
Qed.

(** X13: a reporter just made has no active context manager: making it
    changes no other object, and the first reporting method called on it
    (base class and own computation returning) raises the [ValueError] of
    [_call] without sending anything. *)
Theorem new_reporter_refuses_reports init amp (c : Report) (h : Store B) :
  snd (super_report c init) = Return tt ->
  before_call c = Return tt ->
  exists self h1 h2,
    new_WorkerReporter init amp h = Some (Return self, h1) /\
    reporters h !! self = None /\
    reporters h1 !! self = Some (mkWorkerReporter init amp None) /\
    (forall r, r <> self -> reporters h1 !! r = reporters h !! r) /\
    contexts h1 = contexts h /\
    lists h1 = lists h /\
    report self c h1 = Some (Raise usage_error, h2) /\
    sent_by h2 self = Some (sent amp) /\
    lists h2 = lists h.
Proof.
  intros Hsuper Hbefore.
  set (self := fresh (dom (reporters h))).
  set (h1 := mkStore (<[self := mkWorkerReporter init amp None]> (reporters h))
               (contexts h) (lists h)).
  assert (reporters h1 !! self = Some (mkWorkerReporter init amp None)) as Hrep
    by apply lookup_insert_eq.
  pose proof (report_run self c h1 _ Hrep) as Hrun. cbv zeta in Hrun.
  simpl in Hrun. rewrite Hsuper, Hbefore in Hrun.
  exists self, h1. eexists.
  split; [done|]. split; [apply fresh_lookup_None|]. split; [exact Hrep|].
  split; [intros r Hne; simpl; by rewrite lookup_insert_ne|].
  split; [done|]. split; [done|]. split; [exact Hrun|].
  unfold sent_by. simpl. by rewrite lookup_insert_eq.
Qed.

(** X14: a [with] block that is cut short.  When the body has made [n]
    reports (base class never raising, own computations returning) and then
    raises, the statement raises that exception; the list of the context
    manager still holds the [n] handles recorded before, in order, and the
    reporter is left without active context manager. *)
Theorem interrupted_block_keeps_handles self cs e (h : Store B) rep ctx cm xs :
  reporters h !! self = Some rep ->
  _reporting rep = Some ctx ->
  contexts h !! ctx = Some cm ->
  _reporter cm = self ->
  lists h !! _results cm = Some xs ->
  (forall c b, snd (super_report c b) = Return tt) ->
  Forall (fun c => before_call c = Return tt) cs ->
  exists h',
    with_ ctx (fun results => report_all self cs ;;; raise e)%py h
    = Some (Raise e, h') /\
    lists h' !! _results cm = Some (xs ++ handles_all cs (ampProtocol rep)) /\
    reporting_of h' self = Some None.
Proof.
  intros Hrep Hctx Hcm Hself Hxs Hsuper Hbefore.
  destruct (report_all_run self cs h rep ctx cm xs Hrep Hctx Hcm Hxs Hsuper Hbefore)
    as (h1 & Hall & Hrep1 & _ & Hcontexts & Hlist & _).
  assert (contexts h1 !! ctx = Some cm) as Hcm1 by by rewrite Hcontexts.
  assert ((fun _ : loc => (report_all self cs ;;; raise (A := unit) e)%py)
            (_results cm) h
          = Some (Raise e, h1)) as Hbody.
  { simpl. by rewrite (bind_Return _ _ _ _ _ Hall). }
  rewrite <- Hself in Hrep1.
  eexists. split; [exact (with_run _ _ _ _ _ _ _ Hcm Hbody Hcm1 Hrep1)|].
  split; [done|]. unfold reporting_of. simpl.
  rewrite Hself. by rewrite lookup_insert_eq.
Qed.

End ReportRuns.

(** ** Frames on the wire *)

Lemma frame_entries_inj fr1 fr2 : frame_entries fr1 = frame_entries fr2 -> fr1 = fr2.
Proof.
  destruct fr1 as [n1 f1 l1], fr2 as [n2 f2 l2]. unfold frame_entries. simpl.
  intros [= -> -> Hline]. by apply (inj pretty) in Hline as ->.
Qed.

Lemma flat_map_entries_inj fs1 fs2 :
  flat_map frame_entries fs1 = flat_map frame_entries fs2 -> fs1 = fs2.
Proof.
  revert fs2. induction fs1 as [|fr1 fs1 IH]; intros [|fr2 fs2]; simpl; try done.
  intros [= Hname Hfile Hline Hrest].
  rewrite (IH fs2 Hrest). f_equal.
  apply frame_entries_inj. unfold frame_entries. by rewrite Hname, Hfile, Hline.
Qed.

(** X7: the flat list of strings [_getFrames] gives loses nothing: two
    failures with the same flat list have the same frames, names, files and
    line numbers alike, in the same order. *)
Theorem getFrames_injective (failure1 failure2 : Failure) :
  _getFrames failure1 = _getFrames failure2 <-> frames failure1 = frames failure2.
Proof.
  rewrite !_getFrames_flat_map. split.
  - apply flat_map_entries_inj.
  - by intros ->.
Qed.

(** ** The realm of the credential tests *)

Section RealmFacts.

Context {Interface Impl Mind : Type}.
Context (adapt : Interface -> string -> outcome Impl).

Lemma requestAvatar_known avatarId (mind : Mind) interfaces
    (self : gmap string TestAvatar) avatar :
  self !! avatarId = Some avatar ->
  loggedIn avatar = true ->
  requestAvatar adapt avatarId mind interfaces self = (Raise AssertionError, self).
Proof. intros Hlook Hin. unfold requestAvatar, login. by rewrite Hlook, Hin. Qed.

Lemma requestAvatar_new avatarId (mind : Mind) interfaces
    (self : gmap string TestAvatar) :
  self !! avatarId = None ->
  requestAvatar adapt avatarId mind interfaces self
  = (match interfaces with
     | [] => Raise (IndexError "tuple index out of range")
     | iface :: _ =>
         match adapt iface avatarId with
         | Return impl => Return (iface, impl, avatarId)
         | Raise e => Raise e
         end
     end,
     <[avatarId := mkTestAvatar avatarId true false]> self).
Proof.
  intros Hlook. unfold requestAvatar. rewrite Hlook. simpl.
  rewrite insert_insert_eq.
  destruct interfaces as [|iface rest]; [done|].
  by destruct (adapt iface avatarId).
Qed.

(** X8: for an id the realm does not hold, [requestAvatar] makes the avatar
    and logs it in before it looks at the interfaces: whatever interfaces
    are given, none included, the realm afterwards holds the avatar under
    its id, logged in and not logged out, and every other avatar as before.
    With no interface the call raises [IndexError]; otherwise it ends as the
    adaptation of the avatar to the first interface ends, and returns that
    interface, the adapter and the [logout] of the new avatar. *)
Theorem requestAvatar_first_time avatarId (mind : Mind) interfaces
    (self : gmap string TestAvatar) :
  self !! avatarId = None ->
  let '(result, self') := requestAvatar adapt avatarId mind interfaces self in
  self' !! avatarId = Some (mkTestAvatar avatarId true false) /\
  (forall other, other <> avatarId -> self' !! other = self !! other) /\
  result
  = match interfaces with
    | [] => Raise (IndexError "tuple index out of range")
    | iface :: _ =>
        match adapt iface avatarId with
        | Return impl => Return (iface, impl, avatarId)
        | Raise e => Raise e
        end
    end.
Proof.
  intros Hlook. rewrite (requestAvatar_new _ _ _ _ Hlook).
  rewrite lookup_insert_eq. split; [done|]. split; [|done].
  intros other Hne. by rewrite lookup_insert_ne.
Qed.

(** X9: an avatar can be requested once.  After a [requestAvatar] that
    returned, every further [requestAvatar] for the same id raises
    [AssertionError] and leaves the realm as it is, whatever interfaces are
    asked for, and also after the avatar's [logout] was called: [logout]
    does not undo [login]. *)
Theorem requestAvatar_only_once avatarId (mind mind' : Mind) interfaces interfaces'
    (self self' : gmap string TestAvatar) result :
  requestAvatar adapt avatarId mind interfaces self = (Return result, self') ->
  requestAvatar adapt avatarId mind' interfaces' self' = (Raise AssertionError, self') /\
  requestAvatar adapt avatarId mind' interfaces' (call_logout avatarId self')
  = (Raise AssertionError, call_logout avatarId self').
Proof.
  intros Hfirst.
  assert (exists avatar, self' !! avatarId = Some avatar /\ loggedIn avatar = true)
    as (avatar & Hlook & Hin).
  { unfold requestAvatar in Hfirst.
    destruct (self !! avatarId) as [known|]; simpl in Hfirst.
    - unfold login in Hfirst. destruct (loggedIn known); [done|].
      destruct interfaces as [|iface rest]; [done|].
      destruct (adapt iface avatarId); [|done].
      injection Hfirst as _ <-. eexists. by rewrite lookup_insert_eq.
    - destruct interfaces as [|iface rest]; [done|].
      destruct (adapt iface avatarId); [|done].
      injection Hfirst as _ <-. eexists. by rewrite lookup_insert_eq. }
  split; [by apply (requestAvatar_known _ _ _ _ avatar)|].
  apply (requestAvatar_known _ _ _ _ (logout avatar)); [|done].
  unfold call_logout. by rewrite lookup_alter_eq, Hlook.
Qed.

(** X10: a realm that starts empty and is only used through [requestAvatar]
    and the [logout]s it returns holds every avatar under the avatar's own
    name, logged in; both operations keep that.  In such a realm
    [requestAvatar] returns normally only for an id the realm did not hold
    yet. *)
Theorem realm_stays_ok avatarId (mind : Mind) interfaces
    (self : gmap string TestAvatar) :
  realm_ok self ->
  realm_ok (snd (requestAvatar adapt avatarId mind interfaces self)) /\
  realm_ok (call_logout avatarId self) /\
  (forall result,
     fst (requestAvatar adapt avatarId mind interfaces self) = Return result ->
     self !! avatarId = None).
Proof.
  intros Hok. split; [|split].
  - destruct (self !! avatarId) as [avatar|] eqn:Hlook.
    + destruct (Hok _ _ Hlook) as [_ Hin].
      by rewrite (requestAvatar_known _ _ _ _ _ Hlook Hin).
    + rewrite (requestAvatar_new _ _ _ _ Hlook). simpl.
      intros other avatar Hother.
      destruct (decide (avatarId = other)) as [<-|Hne].
      * rewrite lookup_insert_eq in Hother. by injection Hother as <-.
      * rewrite lookup_insert_ne in Hother by done. by apply Hok.
  - intros other avatar Hother. unfold call_logout in Hother.
    destruct (decide (avatarId = other)) as [<-|Hne].
    + rewrite lookup_alter_eq in Hother.
      destruct (self !! avatarId) as [known|] eqn:Hlook; [|done].
      injection Hother as <-. simpl. by apply Hok.
    + rewrite lookup_alter_ne in Hother by done. by apply Hok.
  - intros result Hresult.
    destruct (self !! avatarId) as [avatar|] eqn:Hlook; [|done].
    destruct (Hok _ _ Hlook) as [_ Hin].
    by rewrite (requestAvatar_known _ _ _ _ _ Hlook Hin) in Hresult.
Qed.

End RealmFacts.

Lemma realm_ok_empty : realm_ok TestRealm_new.
Proof. intros avatarId avatar. unfold TestRealm_new. by rewrite lookup_empty. Qed.

(** ** The stand-in for PAM *)

Lemma replies_eqb_true a b : replies_eqb a b = true <-> a = b.
Proof. unfold replies_eqb. apply bool_decide_eq_true. Qed.

(** X11: [callIntoPAM] returns, and then returns 1, exactly when the
    service is "Twisted", the user is "testuser" and the conversation
    function answers the three questions with "password", "entry" and the
    empty string, each with code 0. *)
Theorem callIntoPAM_accepts_iff repr service user conv (n : Z) :
  callIntoPAM repr service user conv = Return n <->
  n = 1%Z /\ service = "Twisted" /\ user = "testuser" /\
  conv pam_questions = Return pam_replies.
Proof.
  unfold callIntoPAM.
  destruct (String.eqb_spec service "Twisted") as [->|Hservice]; simpl.
  2:{ split; [done|]. by intros (_ & ? & _). }
  destruct (String.eqb_spec user "testuser") as [->|Huser]; simpl.
  2:{ split; [done|]. by intros (_ & _ & ? & _). }
  destruct (conv pam_questions) as [replies|e].
  2:{ split; [done|]. by intros (_ & _ & _ & ?). }
  destruct (replies_eqb replies pam_replies) eqn:Heq; simpl.
  - apply replies_eqb_true in Heq as ->. split.
    + by intros [= <-].
    + by intros (-> & _).
  - split; [done|]. intros (_ & _ & _ & [= ->]).
    assert (replies_eqb pam_replies pam_replies = true)
      by by apply replies_eqb_true.
    congruence.
Qed.

(** X12: [callIntoPAM] checks the service first, then the user, and asks
    the conversation function only after both: a wrong service gives
    [UnauthorizedLogin] "bad service: ..." whatever the user and the
    conversation function are; the right service with a wrong user gives
    "bad username: ..." whatever the conversation function is; and with
    both right, an exception of the conversation function goes to the
    caller. *)
Theorem callIntoPAM_checks_in_order repr service user conv :
  (service <> "Twisted" ->
   callIntoPAM repr service user conv
   = Raise (UnauthorizedLogin ("bad service: " +:+ service))) /\
  (service = "Twisted" -> user <> "testuser" ->
   callIntoPAM repr service user conv
   = Raise (UnauthorizedLogin ("bad username: " +:+ user))) /\
  (service = "Twisted" -> user = "testuser" ->
   forall e, conv pam_questions = Raise e ->
   callIntoPAM repr service user conv = Raise e) /\
  (service = "Twisted" -> user = "testuser" ->
   forall replies, conv pam_questions = Return replies -> replies <> pam_replies ->
   callIntoPAM repr service user conv
   = Raise (UnauthorizedLogin ("bad conversion: " +:+ repr replies))).
Proof.
  unfold callIntoPAM. repeat split.
  - intros Hservice. by destruct (String.eqb_spec service "Twisted").
  - intros -> Huser. simpl. by destruct (String.eqb_spec user "testuser").
  - intros -> -> e ->. done.
  - intros -> -> replies -> Hne. simpl.
    destruct (replies_eqb replies pam_replies) eqn:Heq; [|done].
    by apply replies_eqb_true in Heq.
Qed.

Lemma replies_of_cons d t q questions :
  replies_of d ((t, q) :: questions)
  = match d !! t with
    | None => Raise (KeyError (pretty t))
    | Some answer =>
        match replies_of d questions with
        | Return replies => Return ((answer, 0%Z) :: replies)
        | Raise e => Raise e
        end
    end.
Proof. reflexivity. Qed.

Lemma replies_of_Return d questions replies :
  replies_of d questions = Return replies ->
  Forall2 (fun question reply =>
             d !! fst question = Some (fst reply) /\ snd reply = 0%Z)
    questions replies.
Proof.
  revert replies. induction questions as [|[t q] questions IH]; intros replies.
  - simpl. intros [= <-]. constructor.
  - rewrite replies_of_cons.
    destruct (d !! t) as [answer|] eqn:Hlook; [|done].
    destruct (replies_of d questions) as [rs|e]; [|done].
    intros [= <-]. constructor; [done|]. by apply IH.
Qed.

Lemma replies_of_Forall2 d questions replies :
  Forall2 (fun question reply =>
             d !! fst question = Some (fst reply) /\ snd reply = 0%Z)
    questions replies ->
  replies_of d questions = Return replies.
Proof.
  induction 1 as [|[t q] [a z] questions replies [Ha Hz] _ IH]; [done|].
  simpl in Ha, Hz. rewrite replies_of_cons, Ha, IH. by subst z.
Qed.

Lemma replies_of_Raise d questions e :
  replies_of d questions = Raise e ->
  exists asked t q rest,
    questions = asked ++ (t, q) :: rest /\
    Forall (fun question => is_Some (d !! fst question)) asked /\
    d !! t = None /\
    e = KeyError (pretty t).
Proof.
  induction questions as [|[t q] questions IH]; [done|].
  rewrite replies_of_cons.
  destruct (d !! t) as [answer|] eqn:Hlook.
  - destruct (replies_of d questions) as [rs|e0]; [done|].
    intros [= ->].
    destruct (IH eq_refl) as (asked & t' & q' & rest & -> & Hasked & Hnone & ->).
    exists ((t, q) :: asked), t', q', rest.
    split; [done|]. split; [|done]. constructor; [|done].
    simpl. by rewrite Hlook.
  - intros [= <-]. by exists [], t, q, questions.
Qed.

Lemma replies_of_missing d asked t q rest :
  Forall (fun question => is_Some (d !! fst question)) asked ->
  d !! t = None ->
  replies_of d (asked ++ (t, q) :: rest) = Raise (KeyError (pretty t)).
Proof.
  intros Hasked Hnone.
  induction Hasked as [|[t0 q0] asked [a Ha] _ IH]; simpl.
  - by rewrite Hnone.
  - simpl in Ha. by rewrite Ha, IH.
Qed.

(** X15: the conversation function made from a dictionary answers each
    question with the dictionary's entry for the type of the question and
    the code 0, one reply per question in the order of the questions, and
    hands the replies back in a [Deferred] that already holds them; it
    returns exactly when the dictionary has every type asked for, and
    otherwise raises [KeyError] for the first type it lacks. *)
Theorem _makeConv_replies (d : gmap Z string) (questions : list (Z * string)) :
  (forall replies,
     _makeConv d questions = Return (succeed_with replies) <->
     Forall2 (fun question reply =>
                d !! fst question = Some (fst reply) /\ snd reply = 0%Z)
       questions replies) /\
  (forall e,
     _makeConv d questions = Raise e <->
     exists asked t q rest,
       questions = asked ++ (t, q) :: rest /\
       Forall (fun question => is_Some (d !! fst question)) asked /\
       d !! t = None /\
       e = KeyError (pretty t)).
Proof.
  unfold _makeConv. split.
  - intros replies. split.
    + destruct (replies_of d questions) as [rs|e0] eqn:Hrs; [|done].
      intros [= <-]. by apply replies_of_Return.
    + intros Hall. by rewrite (replies_of_Forall2 _ _ _ Hall).
  - intros e. split.
    + destruct (replies_of d questions) as [rs|e0] eqn:Hrs; [done|].
      intros [= <-]. by apply replies_of_Raise.
    + intros (asked & t & q & rest & -> & Hasked & Hnone & ->).
      by rewrite replies_of_missing.
Qed.

(** ** The further theorems at sample values *)

Lemma Tally_never_raises (c : Report) (b : Tally) : snd (super_report c b) = Return tt.
Proof. by destruct c. Qed.

Lemma reports_in_order_witness :
  reporters (store_reporting quiet_amp) !! 0 = Some (sample_reporter quiet_amp) /\
  exists h',
    report_all 0 [Success t1; Skip t2 (StrObj "slow")] (store_reporting quiet_amp)
    = Some (Return tt, h') /\
    lists h' !! 0 = Some [unfired 0; unfired 1] /\
    sent_by h' 0
    = Some [(AddSuccess, [("testName", AmpString "t1")]);
            (AddSkip, [("testName", AmpString "t2"); ("reason", AmpString "slow")])].
Proof.
  split; [reflexivity|].
  destruct (reports_in_order (TR := Tally_TestResult) 0
              [Success t1; Skip t2 (StrObj "slow")] (store_reporting quiet_amp)
              (sample_reporter quiet_amp) 0 sample_context []
              eq_refl eq_refl eq_refl eq_refl Tally_never_raises)
    as (h' & ds & Hrun & Hlist & _ & Hds & Hsent & _).
  { repeat constructor. }
  exists h'. rewrite Hds in Hlist. repeat split; assumption.
Defined.

Lemma reporting_block_witness :
  exists ctx results h1 h',
    gatherReportingResults 0 (store_with_reporter quiet_amp) = Some (Return ctx, h1) /\
    __enter__ ctx h1 = Some (Return results, h1) /\
    with_ ctx (fun results => report_all 0 [Success t1; Error t2 (Wrapped (Failure_new boom ValueError_class sample_tb))]) h1
    = Some (Return tt, h') /\
    lists h' !! results = Some [unfired 0; unfired 1] /\
    reporting_of h' 0 = Some None.
Proof.
  destruct (reporting_block (TR := Tally_TestResult) 0
              [Success t1; Error t2 (Wrapped (Failure_new boom ValueError_class sample_tb))]
              (store_with_reporter quiet_amp)
              (mkWorkerReporter no_outcomes quiet_amp None) eq_refl Tally_never_raises)
    as (ctx & results & h1 & h' & Hg & Henter & Hwith & Hlist & _ & Hnone & _).
  { repeat constructor. }
  exists ctx, results, h1, h'. repeat split; assumption.
Defined.

Lemma report_frame_witness :
  report 0 (Success t1) (store_reporting quiet_amp)
  = Some (Return tt,
          mkStore {[ 0 := mkWorkerReporter (mkTally 1 [] [] [] [] [])
                            (mkAMP (answer quiet_amp)
                               [(AddSuccess, [("testName", AmpString "t1")])])
                            (Some 0) ]}
                  {[ 0 := sample_context ]}
                  {[ 0 := [unfired 0] ]}) /\
  forall r, r <> 0 ->
    reporters
      (mkStore {[ 0 := mkWorkerReporter (mkTally 1 [] [] [] [] [])
                         (mkAMP (answer quiet_amp)
                            [(AddSuccess, [("testName", AmpString "t1")])])
                         (Some 0) ]}
               {[ 0 := sample_context ]}
               {[ 0 := [unfired 0] ]}) !! r
    = reporters (store_reporting quiet_amp) !! r.
Proof.
  assert (report 0 (Success t1) (store_reporting quiet_amp)
          = Some (Return tt,
                  mkStore {[ 0 := mkWorkerReporter (mkTally 1 [] [] [] [] [])
                                    (mkAMP (answer quiet_amp)
                                       [(AddSuccess, [("testName", AmpString "t1")])])
                                    (Some 0) ]}
                          {[ 0 := sample_context ]}
                          {[ 0 := [unfired 0] ]})) as Hrun by reflexivity.
  split; [exact Hrun|].
  destruct (report_frame (TR := Tally_TestResult) 0 (Success t1)
              (store_reporting quiet_amp) _ _ (sample_reporter quiet_amp)
              Hrun eq_refl) as [Hothers _].
  exact Hothers.
Defined.

Lemma report_sends_at_most_one_call_witness :
  exists calls,
    sent_by
      (mkStore {[ 0 := mkWorkerReporter (mkTally 1 [] [] [] [] [])
                         (mkAMP (answer quiet_amp)
                            [(AddSuccess, [("testName", AmpString "t1")])])
                         (Some 0) ]}
               {[ 0 := sample_context ]}
               {[ 0 := [unfired 0] ]}) 0 = Some ([] ++ calls) /\
    length calls = 1.
Proof.
  destruct (report_sends_at_most_one_call (TR := Tally_TestResult) 0 (Success t1)
              (store_reporting quiet_amp)
              (mkStore {[ 0 := mkWorkerReporter (mkTally 1 [] [] [] [] [])
                                 (mkAMP (answer quiet_amp)
                                    [(AddSuccess, [("testName", AmpString "t1")])])
                                 (Some 0) ]}
                       {[ 0 := sample_context ]}
                       {[ 0 := [unfired 0] ]})
              (Return tt) (sample_reporter quiet_amp) eq_refl eq_refl)
    as (calls & Hsent & _ & _ & _ & Hone & _).
  exists calls. split; [exact Hsent|]. apply Hone; [reflexivity|discriminate].
Defined.

Lemma addErrorFallible_on_its_own_witness :
  reporting_of (store_with_reporter broken_amp) 0 = Some None /\
  exists h',
    _addErrorFallible 0 "t1" (Tuple3 ValueError_class boom sample_tb)
      (store_with_reporter broken_amp)
    = Some (Raise (ExcObj (builtin "ConnectionError") "connection lost"), h') /\
    lists h' = lists (store_with_reporter broken_amp) /\
    reporting_of h' 0 = Some None.
Proof.
  split; [reflexivity|].
  destruct (addErrorFallible_on_its_own 0 "t1"
              (Tuple3 ValueError_class boom sample_tb)
              (store_with_reporter broken_amp)
              (mkWorkerReporter no_outcomes broken_amp None) eq_refl)
    as (o & h' & Hrun & Hlists & _ & Hnone & _ & Ho).
  simpl in Ho. destruct Ho as [-> _].
  exists h'. repeat split; assumption.
Defined.

Lemma error_and_failure_payloads_witness :
  exists h1 h2,
    addError 0 t1 (Tuple3 ValueError_class boom sample_tb) (store_reporting quiet_amp)
    = Some (Return tt, h1) /\
    sent_by h1 0
    = Some ([] ++
            [(AddError,
              [("testName", AmpString "t1");
               ("error", AmpString "boom");
               ("errorClass", AmpString "builtins.ValueError");
               ("frames",
                AmpListOfString
                  ["test_it"; "test_sample.py"; "12"; "helper"; "util.py"; "7"])])]) /\
    addFailure 0 t1 (Tuple3 ValueError_class boom sample_tb) (store_reporting quiet_amp)
    = Some (Return tt, h2) /\
    sent_by h2 0
    = Some ([] ++
            [(AddFailure,
              [("testName", AmpString "t1");
               ("fail", AmpString "boom");
               ("failClass", AmpString "builtins.ValueError");
               ("frames",
                AmpListOfString
                  ["test_it"; "test_sample.py"; "12"; "helper"; "util.py"; "7"])])]).
Proof.
  apply (error_and_failure_payloads (TR := Tally_TestResult) 0 t1
           (Tuple3 ValueError_class boom sample_tb) (builtin "ValueError")
           (store_reporting quiet_amp) (sample_reporter quiet_amp) 0
           sample_context []); reflexivity.
Defined.

Lemma requestAvatar_first_time_witness :
  requestAvatar adapt_Testable "bob" tt ["ITestable"] TestRealm_new
  = (Return ("ITestable", "bob", "bob"), {[ "bob" := mkTestAvatar "bob" true false ]}) /\
  let '(result, self') := requestAvatar adapt_Testable "bob" tt [] TestRealm_new in
  self' !! "bob" = Some (mkTestAvatar "bob" true false) /\
  (forall other, other <> "bob" -> self' !! other = TestRealm_new !! other) /\
  result = Raise (IndexError "tuple index out of range").
Proof.
  split; [reflexivity|].
  apply (requestAvatar_first_time adapt_Testable "bob" tt [] TestRealm_new).
  reflexivity.
Defined.

Lemma requestAvatar_only_once_witness :
  requestAvatar adapt_Testable "bob" tt ["ITestable"] TestRealm_new
  = (Return ("ITestable", "bob", "bob"), {[ "bob" := mkTestAvatar "bob" true false ]}) /\
  requestAvatar adapt_Testable "bob" tt ["ITestable"]
    (call_logout "bob" {[ "bob" := mkTestAvatar "bob" true false ]})
  = (Raise AssertionError, call_logout "bob" {[ "bob" := mkTestAvatar "bob" true false ]}).
Proof.
  split; [reflexivity|].
  destruct (requestAvatar_only_once adapt_Testable "bob" tt tt ["ITestable"]
              ["ITestable"] TestRealm_new
              {[ "bob" := mkTestAvatar "bob" true false ]}
              ("ITestable", "bob", "bob") eq_refl) as [_ Hafter].
  exact Hafter.
Defined.

Lemma realm_stays_ok_witness :
  realm_ok TestRealm_new /\
  realm_ok (snd (requestAvatar adapt_Testable "bob" tt ["ITestable"] TestRealm_new)).
Proof.
  split; [exact realm_ok_empty|].
  destruct (realm_stays_ok adapt_Testable "bob" tt ["ITestable"] TestRealm_new
              realm_ok_empty) as [Hok _].
  exact Hok.
Defined.

Lemma callIntoPAM_checks_in_order_witness :
  callIntoPAM (fun _ => "") "ssh" "testuser" (fun _ => Return pam_replies)
  = Raise (UnauthorizedLogin "bad service: ssh") /\
  callIntoPAM (fun _ => "") "Twisted" "root" (fun _ => Return pam_replies)
  = Raise (UnauthorizedLogin "bad username: root").
Proof.
  split.
  - destruct (callIntoPAM_checks_in_order (fun _ => "") "ssh" "testuser"
                (fun _ => Return pam_replies)) as [Hservice _].
    apply Hservice. discriminate.
  - destruct (callIntoPAM_checks_in_order (fun _ => "") "Twisted" "root"
                (fun _ => Return pam_replies)) as (_ & Huser & _).
    apply Huser; [reflexivity|discriminate].
Defined.

Lemma new_reporter_refuses_reports_witness :
  exists self h1 h2,
    new_WorkerReporter no_outcomes quiet_amp (store_reporting quiet_amp)
    = Some (Return self, h1) /\
    reporters (store_reporting quiet_amp) !! self = None /\
    report self (Success t1) h1 = Some (Raise usage_error, h2) /\
    sent_by h2 self = Some [].
Proof.
  destruct (new_reporter_refuses_reports (TR := Tally_TestResult) no_outcomes
              quiet_amp (Success t1) (store_reporting quiet_amp) eq_refl eq_refl)
    as (self & h1 & h2 & Hnew & Hfresh & _ & _ & _ & _ & Hrun & Hsent & _).
  exists self, h1, h2. repeat split; assumption.
Defined.

Lemma interrupted_block_keeps_handles_witness :
  exists h',
    with_ 0 (fun results => report_all 0 [Success t1; Success t2] ;;; raise boom)%py
      (store_reporting quiet_amp)
    = Some (Raise boom, h') /\
    lists h' !! 0 = Some [unfired 0; unfired 1] /\
    reporting_of h' 0 = Some None.
Proof.
  destruct (interrupted_block_keeps_handles (TR := Tally_TestResult) 0
              [Success t1; Success t2] boom (store_reporting quiet_amp)
              (sample_reporter quiet_amp) 0 sample_context []
              eq_refl eq_refl eq_refl eq_refl eq_refl Tally_never_raises)
    as (h' & Hrun & Hlist & Hnone).
  { repeat constructor. }
  exists h'. repeat split; assumption.
Defined.
